(** * MCP Storybook Image Generator: a shallow embedding of the server

    The development follows the TypeScript sources of the repository:
    - [src/index.ts]: the path resolver ([getDesktopPath],
      [ensureDirectoryExists]), the two writers
      ([saveImageWithProperPath], [saveStoryWithProperPath]), the preview
      opener ([openInBrowser]), [generateStory] and the
      [CallToolRequestSchema] handler;
    - [src/run.mjs] and [src/cli.ts]: the command line wiring.

    JavaScript values are modelled as follows.  A value that may be
    [undefined] is an [option]; [process.env] is a [gmap string string];
    the file system is a finite map from paths to contents together with
    a set of directories; an exception is a value of type [exn] carried
    by the [Err] constructor of [Res].  Calls that leave the process (file
    system, child processes, the generative model) are recorded in a
    chronological log, and their failures are decided by an oracle of the
    host, so that statements quantify over every way these calls can
    fail.  Console output is not modelled. *)

From Stdlib Require Import String Ascii List Bool Arith NArith Lia.
From Stdlib.Strings Require Import Byte.
From stdpp Require Import base option strings gmap.

Local Open Scope string_scope.

(* ===================================================================== *)
(** * JavaScript string primitives used by the sources *)
(* ===================================================================== *)

Module Js.

(** The double quote character (code 34), for the templates that
    contain one. *)
Definition dq : string := String (ascii_of_nat 34) EmptyString.

(** Line feed, as it occurs inside a template literal. *)
Definition nl : string := String (ascii_of_nat 10) EmptyString.

(** [`${v}`] for a value that is a string or [undefined]. *)
Definition template (v : option string) : string :=
  match v with
  | Some s => s
  | None => "undefined"
  end.

(** Truthiness of a string-or-undefined value: [undefined] and the
    empty string are falsy. *)
Definition truthy (v : option string) : bool :=
  match v with
  | Some s => negb (String.eqb s "")
  | None => false
  end.

(** [a || b] on string-or-undefined values. *)
Definition or_else (a b : option string) : option string :=
  if truthy a then a else b.

(** [Boolean.prototype.toString]. *)
Definition bool_toString (b : bool) : string :=
  if b then "true" else "false".

(** [s.endsWith(suffix)]. *)
Fixpoint endsWith (s suffix : string) : bool :=
  String.eqb s suffix ||
  match s with
  | EmptyString => false
  | String _ rest => endsWith rest suffix
  end.

(** Drop the first [n] characters. *)
Fixpoint drop (n : nat) (s : string) : string :=
  match n, s with
  | O, _ => s
  | S _, EmptyString => EmptyString
  | S m, String _ rest => drop m rest
  end.

(** [s.replace(pat, rep)] for a string pattern: only the first
    occurrence is replaced. *)
Fixpoint replace_first (pat rep s : string) : string :=
  if String.prefix pat s then rep +:+ drop (String.length pat) s
  else match s with
       | EmptyString => EmptyString
       | String c rest => String c (replace_first pat rep rest)
       end.

Definition is_dot (c : ascii) : bool := Ascii.eqb c ".".
Definition is_slash (c : ascii) : bool := Ascii.eqb c "/".
Definition is_colon (c : ascii) : bool := Ascii.eqb c ":".

(** Every character of [s] is in the class [[^/.]]. *)
Fixpoint all_not_slash_dot (s : string) : bool :=
  match s with
  | EmptyString => true
  | String c rest => negb (is_slash c) && negb (is_dot c) && all_not_slash_dot rest
  end.

(** The regular expression [/\.[^/.]+$/] matches at the start of [s]. *)
Definition ext_matches_here (s : string) : bool :=
  match s with
  | String c (String d rest) => is_dot c && all_not_slash_dot (String d rest)
  | _ => false
  end.

(** [s.replace(/\.[^/.]+$/, '')]: the search tries every start position
    from the left; a match runs to the end of the string and is
    replaced by the empty string. *)
Fixpoint strip_ext (s : string) : string :=
  if ext_matches_here s then EmptyString
  else match s with
       | EmptyString => EmptyString
       | String c rest => String c (strip_ext rest)
       end.

(** [s.replace(/[:.]/g, '-')]. *)
Fixpoint replace_colon_dot (s : string) : string :=
  match s with
  | EmptyString => EmptyString
  | String c rest =>
      String (if is_colon c || is_dot c then "-"%char else c) (replace_colon_dot rest)
  end.

End Js.

(* ===================================================================== *)
(** * Process bootstrap: [run.mjs], [cli.ts] and the head of [index.ts] *)
(* ===================================================================== *)

Module Bootstrap.

(** What the user typed: the value given to [--api-key] if any, and for
    each boolean flag whether it occurs on the command line. *)
Record CommandLine := {
  arg_api_key : option string;
  arg_save_to_desktop : bool;
  arg_debug : bool;
  arg_help : bool
}.

(** One entry of the [options] object given to [parseArgs]. *)
Record OptionConfig := { opt_default : option bool }.

(** [options] / [cliOptions]: the three boolean options are declared
    with [default: false]. *)
Definition options_save_to_desktop : OptionConfig := {| opt_default := Some false |}.
Definition options_debug : OptionConfig := {| opt_default := Some false |}.
Definition options_help : OptionConfig := {| opt_default := Some false |}.

(** [parseArgs(...).values]. *)
Record Values := {
  v_api_key : option string;
  v_save_to_desktop : option bool;
  v_debug : option bool;
  v_help : option bool
}.

(** Node's [util.parseArgs] for a boolean option: [true] when the flag
    is passed, otherwise the declared default (absent from [values]
    when there is none). *)
Definition parse_flag (cfg : OptionConfig) (passed : bool) : option bool :=
  if passed then Some true else opt_default cfg.

Definition parseArgs (cl : CommandLine) : Values :=
  {| v_api_key := arg_api_key cl;
     v_save_to_desktop := parse_flag options_save_to_desktop (arg_save_to_desktop cl);
     v_debug := parse_flag options_debug (arg_debug cl);
     v_help := parse_flag options_help (arg_help cl) |}.


(** [run.mjs], lines 45-58: the environment handed to the child process
    that runs [index.js]. *)
Definition run_mjs_env (env : gmap string string) (values : Values)
  : gmap string string :=
  let env1 :=
    if Js.truthy (v_api_key values)
    then <["GEMINI_API_KEY" := Js.template (v_api_key values)]> env
    else env in
  let env2 :=
    match v_save_to_desktop values with
    | Some b => <["SAVE_TO_DESKTOP" := Js.bool_toString b]> env1
    | None => env1
    end in
  match v_debug values with
  | Some b => <["DEBUG" := Js.bool_toString b]> env2
  | None => env2
  end.


(** [index.ts], lines 45-49: [cliValues] is the global set by [cli.ts]
    ([None] when the global is absent, as in the child of [run.mjs]).  The
    [.env] file read by [dotenv.config()] only supplies variables that are
    not set and is not modelled. *)
Definition API_KEY (cliValues : option Values) (env : gmap string string)
  : option string :=
  let cliApiKey :=
    match cliValues with
    | Some v => v_api_key v
    | None => None
    end in
  Js.or_else cliApiKey (env !! "GEMINI_API_KEY").

(** [index.ts], line 22. *)
Definition DEBUG (env : gmap string string) : bool :=
  match env !! "DEBUG" with
  | Some s => String.eqb s "true"
  | None => false
  end.

(** The whole start through [run.mjs]: the key and the two settings
    seen by the server. *)
Definition start_run_mjs (env : gmap string string) (cl : CommandLine)
  : option string * option string * option string :=
  let env' := run_mjs_env env (parseArgs cl) in
  (API_KEY None env', env' !! "SAVE_TO_DESKTOP", env' !! "DEBUG").


End Bootstrap.

(* ===================================================================== *)
(** * Exceptions and results *)
(* ===================================================================== *)

(** [ErrorCode] of the protocol SDK; the server only uses
    [ErrorCode.InternalError] (JSON-RPC code -32603). *)
Inductive ErrorCode := InternalError.

Definition code_number (c : ErrorCode) : string :=
  match c with InternalError => "-32603" end.

(** A thrown JavaScript value:
    - [Error m]: an [Error] instance that is not an [McpError] (a
      [TypeError], a file-system or child-process error, an error of the
      provider), with its message;
    - [McpError code m]: [new McpError(code, m)];
    - [NonError shown]: any other thrown value, [shown] being
      [String(value)]. *)
Inductive exn :=
| Error (message : string)
| McpError (code : ErrorCode) (message : string)
| NonError (shown : string).

(** [error instanceof Error]: [McpError] extends [Error]. *)
Definition instanceof_Error (e : exn) : bool :=
  match e with
  | Error _ | McpError _ _ => true
  | NonError _ => false
  end.

(** [error instanceof McpError]. *)
Definition instanceof_McpError (e : exn) : bool :=
  match e with
  | McpError _ _ => true
  | _ => false
  end.

(** [error.message].  The SDK's [McpError] constructor calls
    [super(`MCP error ${code}: ${message}`)]. *)
Definition message (e : exn) : string :=
  match e with
  | Error m => m
  | McpError c m => "MCP error " +:+ code_number c +:+ ": " +:+ m
  | NonError _ => "undefined"
  end.

(** [error instanceof Error ? error.message : String(error)]. *)
Definition message_or_String (e : exn) : string :=
  match e with
  | NonError s => s
  | _ => message e
  end.

(** The [TypeError] V8 raises when a property of [undefined] is read. *)
Definition TypeError_reading (prop : string) : exn :=
  Error ("Cannot read properties of undefined (reading '" +:+ prop +:+ "')").

(** The [TypeError] V8 raises when [undefined] is destructured. *)
Definition TypeError_destructure (prop var : string) : exn :=
  Error ("Cannot destructure property '" +:+ prop +:+ "' of '" +:+ var
         +:+ "' as it is undefined.").

Inductive Res (A : Type) : Type :=
| Ok (a : A)
| Err (e : exn).

Arguments Ok {A} a.
Arguments Err {A} e.

(* ===================================================================== *)
(** * The provider's chunked responses *)
(* ===================================================================== *)

Module GenAI.

Record InlineData := { data : option string; mimeType : option string }.
Record Part := { text : option string; inlineData : option InlineData }.
Record Content := { parts : option (list Part) }.
Record Candidate := { content : option Content }.
Record Chunk := { candidates : option (list Candidate) }.

(** The async iterable returned by [generateContentStream]: a finite
    sequence of chunks that ends normally or by throwing.  A call that
    throws before the first chunk is [SThrow] at the head. *)
Inductive Stream :=
| SEnd
| SChunk (c : Chunk) (rest : Stream)
| SThrow (e : exn).

(** The guard shared by both loops,
    [chunk.candidates && chunk.candidates[0].content
     && chunk.candidates[0].content.parts]:
    the parts array when the three values are truthy, [None] when one
    of them is missing, a [TypeError] when [candidates] is an empty
    array (an array is truthy, its element 0 is [undefined]). *)
Definition guarded_parts (chunk : Chunk) : Res (option (list Part)) :=
  match candidates chunk with
  | None => Ok None
  | Some [] => Err (TypeError_reading "content")
  | Some (c0 :: _) =>
      match content c0 with
      | None => Ok None
      | Some ct => Ok (parts ct)
      end
  end.

End GenAI.

Import GenAI.

(* ===================================================================== *)
(** * The host: environment, file system, provider *)
(* ===================================================================== *)

(** [Buffer.from(s, 'base64')], after Node's lenient decoder: both the
    standard and the URL-safe alphabets are accepted, characters outside
    of them are skipped, and decoding stops at the first padding
    character. *)
Module Base64.

Definition sextet (c : ascii) : option N :=
  let n := N_of_ascii c in
  if (65 <=? n)%N && (n <=? 90)%N then Some (n - 65)%N
  else if (97 <=? n)%N && (n <=? 122)%N then Some (n - 71)%N
  else if (48 <=? n)%N && (n <=? 57)%N then Some (n + 4)%N
  else if (n =? 43)%N || (n =? 45)%N then Some 62%N
  else if (n =? 47)%N || (n =? 95)%N then Some 63%N
  else None.

Fixpoint sextets (s : string) : list N :=
  match s with
  | EmptyString => []
  | String c rest =>
      if Ascii.eqb c "="%char then []
      else match sextet c with
           | Some v => v :: sextets rest
           | None => sextets rest
           end
  end.

Definition octet (n : N) : Byte.byte := byte_of_ascii (ascii_of_N (n mod 256)).

Fixpoint octets (l : list N) : list Byte.byte :=
  match l with
  | a :: b :: c :: d :: rest =>
      octet (a * 4 + b / 16) :: octet (b * 16 + c / 4) :: octet (c * 64 + d)
        :: octets rest
  | [a; b; c] => [octet (a * 4 + b / 16); octet (b * 16 + c / 4)]
  | [a; b] => [octet (a * 4 + b / 16)]
  | _ => []
  end.

Definition decode (s : string) : list Byte.byte := octets (sextets s).

End Base64.

(** What [fs.writeFileSync] is given: a [Buffer] or a string written as
    UTF-8. *)
Inductive Payload :=
| Buffer (bytes : list Byte.byte)
| Utf8 (s : string).

(** A call that leaves the process. *)
Inductive Op :=
| OpGenerate (model : string) (prompt : string)
| OpMkdir (path : string)
| OpWrite (path : string) (payload : Payload)
| OpExec (command : string) (args : list string).

(** Node's [path] module; its functions depend on the platform and are
    left abstract. *)
Class PathModule := {
  path_join : list string -> string;
  path_normalize : string -> string;
  path_dirname : string -> string
}.

(** What does not change while a request is handled. *)
Record Host := {
  process_env : gmap string string;
  os_platform : string;
  os_homedir : string;
  os_userInfo_username : Res string;
  process_cwd : string;
  (** [new Date().toISOString()] at the moment the image is saved *)
  Date_toISOString : string;
  (** the provider: model name and prompt text to response stream *)
  generateContentStream : string -> string -> Stream;
  (** whether a file-system or child-process call throws, given the calls
      made so far *)
  throws : list Op -> Op -> option exn
}.

(** What changes: the file system and the log of calls, oldest first. *)
Record World := {
  dirs : gset string;
  files : gmap string Payload;
  log : list Op
}.

(** The state and exception monad of the server code. *)
Definition M (A : Type) : Type := World -> Res A * World.

Definition ret {A} (a : A) : M A := fun w => (Ok a, w).

Definition throw {A} (e : exn) : M A := fun w => (Err e, w).

Definition bind {A B} (m : M A) (k : A -> M B) : M B :=
  fun w =>
    match m w with
    | (Ok a, w') => k a w'
    | (Err e, w') => (Err e, w')
    end.

(** [try { body } catch (error) { handler }]: the effects of the body up
    to the throw are kept. *)
Definition try_catch {A} (body : M A) (handler : exn -> M A) : M A :=
  fun w =>
    match body w with
    | (Ok a, w') => (Ok a, w')
    | (Err e, w') => handler e w'
    end.

Definition lift {A} (r : Res A) : M A :=
  match r with
  | Ok a => ret a
  | Err e => throw e
  end.

Declare Scope js_scope.
Delimit Scope js_scope with js.
Notation "x <- m ;; k" := (bind m (fun x => k))
  (at level 100, m at next level, right associativity) : js_scope.
Notation "m ;;; k" := (bind m (fun _ => k))
  (at level 100, right associativity) : js_scope.

Definition logged (op : Op) (w : World) : World :=
  {| dirs := dirs w; files := files w; log := log w ++ [op] |}.

(* ===================================================================== *)
(** * [index.ts] *)
(* ===================================================================== *)

Definition imageModel : string := "gemini-2.0-flash-exp-image-generation".
Definition storyModel : string := "gemini-1.5-pro".

(** [request.params.arguments] of a tool call, with the three properties
    the handler destructures. *)
Record Arguments := {
  arg_prompt : option string;
  arg_fileName : option string;
  arg_artStyle : option string
}.

(** [request.params]. *)
Record Request := {
  req_name : string;
  req_arguments : option Arguments
}.

(** The [toolResult] object of a successful call. *)
Record ToolResult := {
  success : bool;
  imagePath : string;
  storyPath : string;
  htmlPath : string;
  content_text : string;
  result_message : string
}.

(** The [enum] of [artStyle] in the tool's [inputSchema]. *)
Definition artStyle_enum : list string :=
  ["3d cartoon"; "watercolor"; "pixel art"; "hand drawn"; "claymation"].

(** The [required] list of the tool's [inputSchema]. *)
Definition inputSchema_required : list string := ["prompt"; "fileName"].

(** [fs.existsSync]: false for the empty path. *)
Definition existsSync (w : World) (p : string) : bool :=
  negb (String.eqb p "")
  && (bool_decide (p ∈ dirs w) || bool_decide (is_Some (files w !! p))).

(** The template literal of [generateStory]. *)
Definition storyPrompt (prompt : option string) : string :=
  "Write a short children's story based on the following prompt: " +:+ Js.dq
  +:+ Js.template prompt +:+ Js.dq +:+ ". " +:+ Js.nl
  +:+ "    The story should be engaging, appropriate for young children, have a clear beginning, middle, and end, "
  +:+ Js.nl
  +:+ "    and convey a positive message or lesson. Keep it under 500 words.".

(** The template literal of the handler that qualifies the prompt with
    the art style. *)
Definition imagePrompt (artStyle : string) (prompt : option string) : string :=
  "Generate a " +:+ artStyle
  +:+ " style image for a children's storybook with this scene: "
  +:+ Js.template prompt +:+ ". " +:+ Js.nl
  +:+ "      The image should be colorful, playful, and child-friendly. Use bright colors, appealing characters, "
  +:+ Js.nl
  +:+ "      and a fun, engaging style that appeals to children.".

(** Lines joined by line feeds. *)
Fixpoint unlines (ls : list string) : string :=
  match ls with
  | [] => ""
  | [l] => l
  | l :: rest => l +:+ Js.nl +:+ unlines rest
  end.

(** The preview document of the handler. *)
Definition htmlContent (prompt : option string) (savedPath story storyPath : string)
  : string :=
  let q := Js.dq in
  unlines [
    "";
    "            <!DOCTYPE html>";
    "            <html>";
    "            <head>";
    "              <title>Storybook Preview</title>";
    "              <style>";
    "                body { font-family: Arial, sans-serif; margin: 20px; background-color: #f9f9f9; }";
    "                .container { max-width: 800px; margin: 0 auto; background: white; padding: 20px; border-radius: 10px; box-shadow: 0 2px 10px rgba(0,0,0,0.1); }";
    "                .image-container { text-align: center; margin: 20px 0; }";
    "                img { max-width: 100%; border-radius: 8px; box-shadow: 0 2px 10px rgba(0,0,0,0.1); }";
    "                .prompt { margin: 10px 0; color: #666; font-style: italic; }";
    "                .story { margin: 20px 0; line-height: 1.6; white-space: pre-line; }";
    "                .path { font-family: monospace; margin: 10px 0; font-size: 12px; color: #888; }";
    "                h1 { color: #4a4a4a; text-align: center; }";
    "                h2 { color: #5a5a5a; }";
    "              </style>";
    "            </head>";
    "            <body>";
    "              <div class=" +:+ q +:+ "container" +:+ q +:+ ">";
    "                <h1>Storybook Image</h1>";
    "                <div class=" +:+ q +:+ "prompt" +:+ q +:+ ">Prompt: "
      +:+ Js.template prompt +:+ "</div>";
    "                <div class=" +:+ q +:+ "image-container" +:+ q +:+ ">";
    "                  <img src=" +:+ q +:+ "file://" +:+ savedPath +:+ q
      +:+ " alt=" +:+ q +:+ "Generated storybook image" +:+ q +:+ ">";
    "                </div>";
    "                <h2>The Story</h2>";
    "                <div class=" +:+ q +:+ "story" +:+ q +:+ ">" +:+ story +:+ "</div>";
    "                <div class=" +:+ q +:+ "path" +:+ q +:+ ">Image saved to: "
      +:+ savedPath +:+ "</div>";
    "                <div class=" +:+ q +:+ "path" +:+ q +:+ ">Story saved to: "
      +:+ storyPath +:+ "</div>";
    "              </div>";
    "            </body>";
    "            </html>";
    "            "
  ].

(** The text of the success result. *)
Definition success_text (savedPath storyPath htmlPath : string) : string :=
  "Storybook generated successfully!" +:+ Js.nl
  +:+ "Image saved to: " +:+ savedPath +:+ Js.nl
  +:+ "Story saved to: " +:+ storyPath +:+ Js.nl
  +:+ "Preview HTML: " +:+ htmlPath.

(** The two fallback texts of [generateStory]. *)
Definition story_fallback : string :=
  "Once upon a time... (Story generation failed, but the image has been created)".

Definition story_fallback_error (error : exn) : string :=
  "Once upon a time... (Story generation failed: " +:+ message_or_String error +:+ ")".

(** The chunk loop of [generateStory] (lines 294-302): [storyText] grows
    by the text of part 0 of candidate 0 of each chunk. *)
Fixpoint collect_story_text (response : Stream) (storyText : string) : Res string :=
  match response with
  | SEnd => Ok storyText
  | SThrow e => Err e
  | SChunk chunk rest =>
      match guarded_parts chunk with
      | Err e => Err e
      | Ok None => collect_story_text rest storyText
      | Ok (Some []) => Err (TypeError_reading "text")
      | Ok (Some (part :: _)) =>
          match text part with
          | Some t => collect_story_text rest (storyText +:+ t)
          | None => collect_story_text rest storyText
          end
      end
  end.

(** The name given to the image file (lines 391-394). *)
Definition timestamp (iso : string) : string := Js.replace_colon_dot iso.

Definition outputFileName (fileName iso : string) : string :=
  if Js.endsWith fileName ".png" then fileName
  else fileName +:+ "_" +:+ timestamp iso +:+ ".png".

(** The name given to the story file (line 356). *)
Definition storyFileName (fileName : string) : string :=
  Js.strip_ext fileName +:+ "_story.txt".

(** The name given to the preview file (line 434). *)
Definition htmlFileName (outputFileName : string) : string :=
  Js.replace_first ".png" "" outputFileName +:+ "_preview.html".

Section Server.

Context `{PathModule} (h : Host).

Local Open Scope js_scope.

(** ** Calls that leave the process *)

Definition fs_existsSync (p : string) : M bool :=
  fun w => (Ok (existsSync w p), w).

(** [fs.mkdirSync(p, { recursive: true })]. *)
Definition fs_mkdirSync (p : string) : M unit :=
  fun w =>
    match throws h (log w) (OpMkdir p) with
    | Some e => (Err e, logged (OpMkdir p) w)
    | None =>
        (Ok tt, {| dirs := {[p]} ∪ dirs w; files := files w;
                   log := log w ++ [OpMkdir p] |})
    end.

(** [fs.writeFileSync(p, payload)]: a plain overwrite. *)
Definition fs_writeFileSync (p : string) (payload : Payload) : M unit :=
  fun w =>
    match throws h (log w) (OpWrite p payload) with
    | Some e => (Err e, logged (OpWrite p payload) w)
    | None =>
        (Ok tt, {| dirs := dirs w; files := <[p := payload]> (files w);
                   log := log w ++ [OpWrite p payload] |})
    end.

(** [execFileAsync(command, args)]. *)
Definition execFileAsync (command : string) (args : list string) : M unit :=
  fun w =>
    match throws h (log w) (OpExec command args) with
    | Some e => (Err e, logged (OpExec command args) w)
    | None => (Ok tt, logged (OpExec command args) w)
    end.

(** [genAI.models.generateContentStream({ model, contents })]. *)
Definition models_generateContentStream (model prompt : string) : M Stream :=
  fun w => (Ok (generateContentStream h model prompt), logged (OpGenerate model prompt) w).

(** ** Path resolver *)

Definition platform_is (name : string) : bool := String.eqb (os_platform h) name.

Definition getDesktopPath : M string :=
  try_catch
    (let home := os_homedir h in
     username <- lift (os_userInfo_username h) ;;
     if platform_is "win32" then
       let desktopPath :=
         if Js.truthy (process_env h !! "USERPROFILE")
         then path_join [Js.template (process_env h !! "USERPROFILE"); "Desktop"]
         else path_join ["C:"; "Users"; username; "Desktop"] in
       found <- fs_existsSync desktopPath ;;
       if found then ret desktopPath else ret home
     else if platform_is "darwin" then
       let desktopPath := path_join [home; "Desktop"] in
       ret desktopPath
     else
       let xdgDesktop := process_env h !! "XDG_DESKTOP_DIR" in
       found <- (if Js.truthy xdgDesktop
                 then fs_existsSync (Js.template xdgDesktop)
                 else ret false) ;;
       if found then ret (Js.template xdgDesktop)
       else
         let linuxDesktop := path_join [home; "Desktop"] in
         found' <- fs_existsSync linuxDesktop ;;
         if found' then ret linuxDesktop else ret home)
    (fun error => ret (os_homedir h)).

Definition ensureDirectoryExists (dirPath : string) : M unit :=
  found <- fs_existsSync dirPath ;;
  if found then ret tt
  else try_catch (fs_mkdirSync dirPath) (fun error => throw error).

(** ** Persistence writer *)

Definition save_to_desktop : bool :=
  bool_decide (process_env h !! "SAVE_TO_DESKTOP" = Some "true").

Definition saveImageWithProperPath (buffer : list Byte.byte) (fileName : string)
  : M string :=
  try_catch
    (if save_to_desktop then
       desktop <- getDesktopPath ;;
       let desktopSaveDir := path_join [desktop; "storybook-images"] in
       ensureDirectoryExists desktopSaveDir ;;;
       let outputPath := path_normalize (path_join [desktopSaveDir; fileName]) in
       fs_writeFileSync outputPath (Buffer buffer) ;;;
       ret outputPath
     else
       let serverDir := process_cwd h in
       let localSaveDir := path_join [serverDir; "storybook-images"] in
       ensureDirectoryExists localSaveDir ;;;
       let outputPath := path_normalize (path_join [localSaveDir; fileName]) in
       fs_writeFileSync outputPath (Buffer buffer) ;;;
       ret outputPath)
    (fun error =>
       let fallbackDir := path_join [process_cwd h; "output"] in
       ensureDirectoryExists fallbackDir ;;;
       let fallbackPath := path_join [fallbackDir; fileName] in
       fs_writeFileSync fallbackPath (Buffer buffer) ;;;
       ret fallbackPath).

Definition saveStoryWithProperPath (story : string) (fileName : string)
  : M string :=
  try_catch
    (if save_to_desktop then
       desktop <- getDesktopPath ;;
       let desktopStoryDir := path_join [desktop; "storybook-images"] in
       ensureDirectoryExists desktopStoryDir ;;;
       let outputPath := path_normalize (path_join [desktopStoryDir; fileName]) in
       fs_writeFileSync outputPath (Utf8 story) ;;;
       ret outputPath
     else
       let serverDir := process_cwd h in
       let localStoryDir := path_join [serverDir; "storybook-images"] in
       ensureDirectoryExists localStoryDir ;;;
       let outputPath := path_normalize (path_join [localStoryDir; fileName]) in
       fs_writeFileSync outputPath (Utf8 story) ;;;
       ret outputPath)
    (fun error =>
       let fallbackDir := path_join [process_cwd h; "output"] in
       ensureDirectoryExists fallbackDir ;;;
       let fallbackPath := path_join [fallbackDir; fileName] in
       fs_writeFileSync fallbackPath (Utf8 story) ;;;
       ret fallbackPath).

(** ** Preview opener *)

Definition openInBrowser (filePath : string) : M unit :=
  try_catch
    (if bool_decide (process_env h !! "DISPLAY" = None)
        && negb (platform_is "win32") && negb (platform_is "darwin")
     then ret tt
     else
       let normalizedPath := path_normalize filePath in
       let command :=
         if platform_is "win32" then "explorer"
         else if platform_is "darwin" then "open"
         else "xdg-open" in
       execFileAsync command [normalizedPath])
    (fun error => ret tt).

(** ** Story generation *)

Definition generateStory (prompt : option string) : M string :=
  try_catch
    (response <- models_generateContentStream storyModel (storyPrompt prompt) ;;
     storyText <- lift (collect_story_text response "") ;;
     ret (Js.template (Js.or_else (Some storyText) (Some story_fallback))))
    (fun error => ret (story_fallback_error error)).

(** ** The tool handler *)

(** The body of [if (...parts[0].inlineData) { ... }], lines 387-462. *)
Definition on_inlineData (prompt : option string) (fileName story storyPath : string)
    (inlineData : InlineData) : M ToolResult :=
  let buffer := Base64.decode (Js.template (Js.or_else (data inlineData) (Some ""))) in
  let outputFileName := outputFileName fileName (Date_toISOString h) in
  savedPath <- saveImageWithProperPath buffer outputFileName ;;
  let htmlContent := htmlContent prompt savedPath story storyPath in
  let htmlFileName := htmlFileName outputFileName in
  let htmlPath := path_join [path_dirname savedPath; htmlFileName] in
  ensureDirectoryExists (path_dirname htmlPath) ;;;
  fs_writeFileSync htmlPath (Utf8 htmlContent) ;;;
  try_catch (openInBrowser htmlPath) (fun error => ret tt) ;;;
  ret {| success := true;
         imagePath := savedPath;
         storyPath := storyPath;
         htmlPath := htmlPath;
         content_text := success_text savedPath storyPath htmlPath;
         result_message := "Storybook image and story generated and saved" |}.

(** The [for await] loop over the image stream and the [throw] that
    follows it, lines 382-466. *)
Fixpoint image_loop (prompt : option string) (fileName story storyPath : string)
    (response : Stream) : M ToolResult :=
  match response with
  | SEnd => throw (McpError InternalError "No image data received from the API")
  | SThrow e => throw e
  | SChunk chunk rest =>
      match guarded_parts chunk with
      | Err e => throw e
      | Ok None => image_loop prompt fileName story storyPath rest
      | Ok (Some []) => throw (TypeError_reading "inlineData")
      | Ok (Some (part :: _)) =>
          match inlineData part with
          | Some found => on_inlineData prompt fileName story storyPath found
          | None => image_loop prompt fileName story storyPath rest
          end
      end
  end.

(** [const { prompt, fileName, artStyle = "3d cartoon" } = args]. *)
Definition destructure (args : option Arguments)
  : M (option string * option string * string) :=
  match args with
  | None => throw (TypeError_destructure "prompt" "args")
  | Some a =>
      ret (arg_prompt a, arg_fileName a,
           match arg_artStyle a with
           | Some s => s
           | None => "3d cartoon"
           end)
  end.

(** The [CallToolRequestSchema] handler, lines 344-487. *)
Definition handler (request : Request) : M ToolResult :=
  let toolName := req_name request in
  let args := req_arguments request in
  try_catch
    (if String.eqb toolName "generate_storybook_image" then
       destructured <- destructure args ;;
       let '(prompt, fileName, artStyle) := destructured in
       story <- generateStory prompt ;;
       fileName <- match fileName with
                   | Some f => ret f
                   | None => throw (TypeError_reading "replace")
                   end ;;
       let storyFileName := storyFileName fileName in
       storyPath <- saveStoryWithProperPath story storyFileName ;;
       let imagePrompt := imagePrompt artStyle prompt in
       try_catch
         (response <- models_generateContentStream imageModel imagePrompt ;;
          image_loop prompt fileName story storyPath response)
         (fun error =>
            if instanceof_Error error
            then throw (McpError InternalError
                          ("Failed to generate image: " +:+ message error))
            else throw (McpError InternalError "An unknown error occurred"))
     else throw (McpError InternalError ("Unknown tool: " +:+ toolName)))
    (fun error =>
       if instanceof_McpError error then throw error
       else throw (McpError InternalError
                     ("Error processing request: " +:+ message_or_String error))).

End Server.

(* ===================================================================== *)
(** * A concrete host for examples *)
(* ===================================================================== *)

(** A small POSIX instance of the [path] functions: segments are joined
    with a slash, empty segments are dropped; [.] and [..] segments are
    not resolved.  It only serves to run the model on examples: the
    theorems hold for every instance. *)
Module SimplePosix.

Fixpoint contains_slash (s : string) : bool :=
  match s with
  | EmptyString => false
  | String c rest => Js.is_slash c || contains_slash rest
  end.

Fixpoint join (segments : list string) : string :=
  match segments with
  | [] => "."
  | [s] => s
  | s :: rest => if String.eqb s "" then join rest else s +:+ "/" +:+ join rest
  end.

Fixpoint dirname_go (s : string) : string :=
  match s with
  | EmptyString => EmptyString
  | String c rest => if contains_slash rest then String c (dirname_go rest) else EmptyString
  end.

Definition dirname (s : string) : string :=
  if contains_slash s
  then (if String.eqb (dirname_go s) "" then "/" else dirname_go s)
  else ".".

#[export] Instance path : PathModule :=
  {| path_join := join; path_normalize := fun p => p; path_dirname := dirname |}.

End SimplePosix.

Module Examples.

Import SimplePosix.

Definition image_chunk (d : option string) : Chunk :=
  {| candidates := Some [ {| content := Some {| parts := Some
       [ {| text := None; inlineData := Some {| data := d; mimeType := Some "image/png" |} |} ]
     |} |} ] |}.

Definition text_chunk (fragments : list string) : Chunk :=
  {| candidates := Some [ {| content := Some {| parts := Some
       (map (fun t => {| text := Some t; inlineData := None |}) fragments)
     |} |} ] |}.

(** A provider that answers the story model with [story] and the image
    model with [image]. *)
Definition provider (story image : Stream) (model prompt : string) : Stream :=
  if String.eqb model storyModel then story else image.

Definition never_throws : list Op -> Op -> option exn := fun _ _ => None.

(** Only writes below [/srv/storybook-images] throw. *)
Definition primary_write_throws : list Op -> Op -> option exn :=
  fun _ op =>
    match op with
    | OpWrite p _ =>
        if String.prefix "/srv/storybook-images" p
        then Some (Error "EACCES: permission denied") else None
    | _ => None
    end.

Definition linux_host (story image : Stream) (iso : string)
    (oracle : list Op -> Op -> option exn) : Host :=
  {| process_env := {[ "SAVE_TO_DESKTOP" := "false" ]};
     os_platform := "linux";
     os_homedir := "/home/ann";
     os_userInfo_username := Ok "ann";
     process_cwd := "/srv";
     Date_toISOString := iso;
     generateContentStream := provider story image;
     throws := oracle |}.

Definition desktop_host (platform : string) (env : gmap string string) : Host :=
  {| process_env := env;
     os_platform := platform;
     os_homedir := "/home/ann";
     os_userInfo_username := Ok "ann";
     process_cwd := "/srv";
     Date_toISOString := "2026-11-02T10:20:30.123Z";
     generateContentStream := provider SEnd SEnd;
     throws := never_throws |}.

Definition empty_world : World := {| dirs := ∅; files := ∅; log := [] |}.

Definition dragon : Request :=
  {| req_name := "generate_storybook_image";
     req_arguments := Some {| arg_prompt := Some "a dragon learns to share";
                              arg_fileName := Some "dragon1";
                              arg_artStyle := Some "watercolor" |} |}.

Definition request_with (prompt fileName artStyle : option string) : Request :=
  {| req_name := "generate_storybook_image";
     req_arguments := Some {| arg_prompt := prompt; arg_fileName := fileName;
                              arg_artStyle := artStyle |} |}.

End Examples.

(* ===================================================================== *)
(** * Vocabulary of the statements *)
(* ===================================================================== *)

(** The chunks a stream yields before it ends. *)
Fixpoint chunks_of (response : Stream) : list Chunk :=
  match response with
  | SChunk c rest => c :: chunks_of rest
  | _ => []
  end.

(** The stream ends without throwing. *)
Fixpoint completes (response : Stream) : bool :=
  match response with
  | SEnd => true
  | SChunk _ rest => completes rest
  | SThrow _ => false
  end.

(** Both loops read [candidates[0]] and [parts[0]]: a chunk is readable
    when neither array is present and empty. *)
Definition readable (chunk : Chunk) : bool :=
  match guarded_parts chunk with
  | Ok (Some []) | Err _ => false
  | _ => true
  end.

(** Part 0 of candidate 0, when the guard of the loops lets it through. *)
Definition first_part (chunk : Chunk) : option Part :=
  match guarded_parts chunk with
  | Ok (Some (part :: _)) => Some part
  | _ => None
  end.

(** The text a chunk contributes to the story: that of part 0 of
    candidate 0. *)
Definition chunk_text (chunk : Chunk) : string :=
  match first_part chunk with
  | Some part => Js.template (Js.or_else (text part) (Some ""))
  | None => ""
  end.

Definition concat_all (l : list string) : string := fold_right String.append "" l.

(** Every textual fragment of a chunk: the text of every part of every
    candidate. *)
Definition all_fragments_of_chunk (chunk : Chunk) : list string :=
  flat_map
    (fun cand =>
       match content cand with
       | Some ct =>
           flat_map (fun part => match text part with Some t => [t] | None => [] end)
                    (match parts ct with Some ps => ps | None => [] end)
       | None => []
       end)
    (match candidates chunk with Some cs => cs | None => [] end).

(** The reading of the specification: the concatenation, in stream order,
    of all textual fragments across all chunks. *)
Definition all_text_fragments (response : Stream) : string :=
  concat_all (flat_map all_fragments_of_chunk (chunks_of response)).


(** A call other than one to the provider. *)
Definition local_op (op : Op) : bool :=
  match op with
  | OpGenerate _ _ => false
  | _ => true
  end.

(** An action that only appends calls other than provider calls to the
    log. *)
Definition local {A} (m : M A) : Prop :=
  forall w r w', m w = (r, w') ->
    exists ops : list Op, log w' = (log w ++ ops)%list /\ forallb local_op ops = true.

(** The prompts sent to the image model, oldest first. *)
Fixpoint image_prompts (ops : list Op) : list string :=
  match ops with
  | [] => []
  | OpGenerate model prompt :: rest =>
      if String.eqb model imageModel then prompt :: image_prompts rest
      else image_prompts rest
  | _ :: rest => image_prompts rest
  end.

(** The paths given to [fs.writeFileSync], oldest first. *)
Fixpoint write_targets (ops : list Op) : list string :=
  match ops with
  | [] => []
  | OpWrite p _ :: rest => p :: write_targets rest
  | _ :: rest => write_targets rest
  end.

(** A call of the tool with the given arguments object. *)
Definition tool_call (a : Arguments) : Request :=
  {| req_name := "generate_storybook_image"; req_arguments := Some a |}.

(** The art style after the destructuring default. *)
Definition style_of (a : Arguments) : string :=
  match arg_artStyle a with
  | Some s => s
  | None => "3d cartoon"
  end.

(** What the outer [catch] of the handler rethrows. *)
Definition boundary (error : exn) : exn :=
  if instanceof_McpError error then error
  else McpError InternalError ("Error processing request: " +:+ message_or_String error).

(** What the [catch] around image generation rethrows. *)
Definition image_boundary (error : exn) : exn :=
  if instanceof_Error error
  then McpError InternalError ("Failed to generate image: " +:+ message error)
  else McpError InternalError "An unknown error occurred".

(** Some part of some candidate of the chunk carries inline data. *)
Definition contains_inlineData (chunk : Chunk) : bool :=
  existsb
    (fun cand =>
       match content cand with
       | Some ct =>
           existsb (fun part => bool_decide (is_Some (inlineData part)))
                   (match parts ct with Some ps => ps | None => [] end)
       | None => false
       end)
    (match candidates chunk with Some cs => cs | None => [] end).

(** The inline data of the first chunk whose part 0 carries some, when
    the scan of the image loop reaches it. *)
Fixpoint first_inlineData (response : Stream) : option InlineData :=
  match response with
  | SChunk chunk rest =>
      match guarded_parts chunk with
      | Ok (Some (part :: _)) =>
          match inlineData part with
          | Some found => Some found
          | None => first_inlineData rest
          end
      | Ok None => first_inlineData rest
      | _ => None
      end
  | _ => None
  end.

Section Attempts.

Context `{PathModule} (h : Host).

Local Open Scope js_scope.

(** Where a file named [name] goes when files are saved below the
    working directory. *)
Definition local_path (name : string) : string :=
  path_normalize (path_join [path_join [process_cwd h; "storybook-images"]; name]).

(** The [try] block shared by the two writers, for either payload. *)
Definition first_attempt (payload : Payload) (fileName : string) : M string :=
  if save_to_desktop h then
    desktop <- getDesktopPath h ;;
    let saveDir := path_join [desktop; "storybook-images"] in
    ensureDirectoryExists h saveDir ;;;
    let outputPath := path_normalize (path_join [saveDir; fileName]) in
    fs_writeFileSync h outputPath payload ;;;
    ret outputPath
  else
    let serverDir := process_cwd h in
    let saveDir := path_join [serverDir; "storybook-images"] in
    ensureDirectoryExists h saveDir ;;;
    let outputPath := path_normalize (path_join [saveDir; fileName]) in
    fs_writeFileSync h outputPath payload ;;;
    ret outputPath.

(** The [catch] block shared by the two writers. *)
Definition retry (payload : Payload) (fileName : string) : M string :=
  let fallbackDir := path_join [process_cwd h; "output"] in
  ensureDirectoryExists h fallbackDir ;;;
  let fallbackPath := path_join [fallbackDir; fileName] in
  fs_writeFileSync h fallbackPath payload ;;;
  ret fallbackPath.

(** The writer for a payload: [saveImageWithProperPath] for a buffer,
    [saveStoryWithProperPath] for a text. *)
Definition save (payload : Payload) (fileName : string) : M string :=
  match payload with
  | Buffer buffer => saveImageWithProperPath h buffer fileName
  | Utf8 story => saveStoryWithProperPath h story fileName
  end.

End Attempts.

(** ** Timestamps *)

Definition is_digit (c : ascii) : bool :=
  let n := N_of_ascii c in (48 <=? n)%N && (n <=? 57)%N.

(** [s] has the shape [pattern], where a [d] of the pattern stands for
    any digit and every other character for itself. *)
Fixpoint matches_pattern (pattern s : string) : bool :=
  match pattern, s with
  | EmptyString, EmptyString => true
  | String p ps, String c cs =>
      (if Ascii.eqb p "d" then is_digit c else Ascii.eqb c p) && matches_pattern ps cs
  | _, _ => false
  end.

(** The shape of [Date.prototype.toISOString] for the years 0 to 9999. *)
Definition iso_shape (s : string) : bool :=
  matches_pattern "dddd-dd-ddTdd:dd:dd.dddZ" s.

(** ** The desktop policy in the words of the specification *)

Section DesktopPolicy.

Context `{PathModule} (h : Host) (w : World).


End DesktopPolicy.

(** ** Vocabulary of the further properties *)

(** Every character of [s] satisfies [p]. *)
Fixpoint string_forall (p : ascii -> bool) (s : string) : bool :=
  match s with
  | EmptyString => true
  | String c rest => p c && string_forall p rest
  end.

(** [s] holds no dot. *)
Definition no_dot (s : string) : bool := string_forall (fun c => negb (Js.is_dot c)) s.

(** A character that may stand in a timestamp: neither a colon nor a
    dot. *)
Definition timestamp_char (c : ascii) : bool := negb (Js.is_colon c || Js.is_dot c).

(** An action that keeps what is there: the log is extended, no
    directory disappears, no file disappears, and a file changes only if
    a write at its path is in the extension of the log. *)
Definition keeps_files {A} (m : M A) : Prop :=
  forall w r w', m w = (r, w') ->
    exists ops : list Op,
      log w' = (log w ++ ops)%list
      /\ dirs w ⊆ dirs w'
      /\ (forall q, is_Some (files w !! q) -> is_Some (files w' !! q))
      /\ (forall q, q ∉ write_targets ops -> files w' !! q = files w !! q).

(** Numbers of calls: to the provider, [mkdirSync], [writeFileSync],
    [execFile]. *)
Record Tally := {
  n_generate : nat;
  n_mkdir : nat;
  n_write : nat;
  n_exec : nat
}.

Definition tally_add (a b : Tally) : Tally :=
  {| n_generate := n_generate a + n_generate b;
     n_mkdir := n_mkdir a + n_mkdir b;
     n_write := n_write a + n_write b;
     n_exec := n_exec a + n_exec b |}.

Definition tally_le (a b : Tally) : Prop :=
  n_generate a <= n_generate b /\ n_mkdir a <= n_mkdir b
  /\ n_write a <= n_write b /\ n_exec a <= n_exec b.

Definition tally_of_op (op : Op) : Tally :=
  match op with
  | OpGenerate _ _ => {| n_generate := 1; n_mkdir := 0; n_write := 0; n_exec := 0 |}
  | OpMkdir _ => {| n_generate := 0; n_mkdir := 1; n_write := 0; n_exec := 0 |}
  | OpWrite _ _ => {| n_generate := 0; n_mkdir := 0; n_write := 1; n_exec := 0 |}
  | OpExec _ _ => {| n_generate := 0; n_mkdir := 0; n_write := 0; n_exec := 1 |}
  end.

Definition tally_zero : Tally :=
  {| n_generate := 0; n_mkdir := 0; n_write := 0; n_exec := 0 |}.

(** The calls of a log, counted by kind. *)
Definition tally (ops : list Op) : Tally :=
  fold_right (fun op t => tally_add (tally_of_op op) t) tally_zero ops.

(** An action that makes at most [bound] calls of each kind. *)
Definition within (bound : Tally) {A} (m : M A) : Prop :=
  forall w r w', m w = (r, w') ->
    exists ops : list Op, log w' = (log w ++ ops)%list /\ tally_le (tally ops) bound.

(** The stream that yields the chunks [cs] and goes on as [rest]. *)
Definition prepend (cs : list Chunk) (rest : Stream) : Stream :=
  fold_right SChunk rest cs.

(** ** Start of the process through [run.mjs] *)

Module Startup.

Import Bootstrap.




End Startup.
(* ===================================================================== *)
(** * The string primitives on examples *)
(* ===================================================================== *)

Example strip_ext_1 : Js.strip_ext "dragon1" = "dragon1". Proof. reflexivity. Qed.
Example strip_ext_2 : Js.strip_ext "a.b.png" = "a.b". Proof. reflexivity. Qed.
Example strip_ext_3 : Js.strip_ext "dir.d/file" = "dir.d/file". Proof. reflexivity. Qed.
Example strip_ext_4 : Js.strip_ext "trailing." = "trailing.". Proof. reflexivity. Qed.
Example replace_first_1 : Js.replace_first ".png" "" "a.png.png" = "a.png". Proof. reflexivity. Qed.
Example ends_1 : Js.endsWith "pic.png" ".png" = true. Proof. reflexivity. Qed.
Example ends_2 : Js.endsWith "pic.png.txt" ".png" = false. Proof. reflexivity. Qed.
Example ts_1 : Js.replace_colon_dot "2026-11-02T10:20:30.123Z" = "2026-11-02T10-20-30-123Z".
Proof. reflexivity. Qed.

Example boot_1 :
  Bootstrap.start_run_mjs {["SAVE_TO_DESKTOP" := "true"]}
    {| Bootstrap.arg_api_key := Some "k"; Bootstrap.arg_save_to_desktop := false;
       Bootstrap.arg_debug := false; Bootstrap.arg_help := false |}
  = (Some "k", Some "false", Some "false").
Proof. reflexivity. Qed.

Example decode_1 : Base64.decode "aGk=" = ["h"%byte; "i"%byte].
Proof. reflexivity. Qed.
Example decode_2 : Base64.decode "" = [].
Proof. reflexivity. Qed.
Example iso_shape_1 : iso_shape "2026-11-02T10:20:30.123Z" = true.
Proof. reflexivity. Qed.
Example iso_shape_2 : iso_shape "2026-11-02 10:20:30" = false.
Proof. reflexivity. Qed.

(* ===================================================================== *)
(** * Properties of the bootstrap *)
(* ===================================================================== *)

Section BootstrapFacts.

Import Bootstrap.

Variable env : gmap string string.
Variable cl : CommandLine.

(** With [default: false], [values] always holds a boolean for the two
    flags, so the test [!== undefined] of [run.mjs] never fails. *)
Lemma parseArgs_flags_defined :
  v_save_to_desktop (parseArgs cl) = Some (arg_save_to_desktop cl)
  /\ v_debug (parseArgs cl) = Some (arg_debug cl).
Proof.
  unfold parseArgs, parse_flag; simpl.
  destruct (arg_save_to_desktop cl), (arg_debug cl); auto.
Qed.


End BootstrapFacts.


(* ===================================================================== *)
(** * Strings *)
(* ===================================================================== *)

Lemma app_cons (c : ascii) (s t : string) : String c s +:+ t = String c (s +:+ t).
Proof. reflexivity. Qed.

Lemma app_assoc_str (a b c : string) : (a +:+ b) +:+ c = a +:+ (b +:+ c).
Proof.
  induction a as [|x a IH]; [reflexivity|].
  rewrite !app_cons, IH. reflexivity.
Qed.

Lemma app_empty_r (a : string) : a +:+ "" = a.
Proof.
  induction a as [|x a IH]; [reflexivity|].
  rewrite app_cons, IH. reflexivity.
Qed.




(* ===================================================================== *)
(** * Story generation *)
(* ===================================================================== *)

Lemma collect_story_text_acc (response : Stream) :
  forall acc t,
    collect_story_text response acc = Ok t ->
    t = acc +:+ concat_all (map chunk_text (chunks_of response)).
Proof.
  induction response as [|c rest IH|e]; intros acc t Hc; simpl in Hc.
  - injection Hc as <-. simpl. symmetry. apply app_empty_r.
  - simpl. unfold chunk_text, first_part.
    destruct (guarded_parts c) as [[[|part ps]|]|e]; try discriminate.
    + destruct (text part) as [tx|] eqn:Htx; simpl.
      * apply IH in Hc. rewrite Hc.
        destruct tx; simpl; rewrite ?app_assoc_str; reflexivity.
      * apply IH in Hc. exact Hc.
    + apply IH in Hc. exact Hc.
  - discriminate.
Qed.

Lemma collect_story_text_total (response : Stream) :
  forall acc,
    completes response = true ->
    forallb readable (chunks_of response) = true ->
    exists t, collect_story_text response acc = Ok t.
Proof.
  induction response as [|c rest IH|e]; intros acc Hend Hread; simpl in *.
  - eauto.
  - apply andb_true_iff in Hread as [Hc Hrest]. unfold readable in Hc.
    destruct (guarded_parts c) as [[[|part ps]|]|e]; try discriminate.
    + destruct (text part); apply IH; assumption.
    + apply IH; assumption.
  - discriminate.
Qed.

(** C9, as amended.  The text accumulated by the chunk loop of
    [generateStory] is the concatenation, in stream order, of the text of
    part 0 of candidate 0 of each chunk: whenever the loop finishes, that
    is its result, and it does finish on every stream that ends normally
    and whose chunks are readable. *)
Theorem story_text_is_first_parts :
  forall response : Stream,
    completes response = true ->
    forallb readable (chunks_of response) = true ->
    collect_story_text response "" = Ok (concat_all (map chunk_text (chunks_of response))).
Proof.
  intros response Hend Hread.
  destruct (collect_story_text_total response "" Hend Hread) as [t Ht].
  rewrite Ht. f_equal. apply collect_story_text_acc in Ht. exact Ht.
Qed.

(** C9 as stated fails: text in a second part of a chunk is left out. *)
Lemma story_text_skips_later_parts :
  let response := SChunk (Examples.text_chunk ["Once upon a time, "; "a dragon..."]) SEnd in
  collect_story_text response "" = Ok "Once upon a time, "
  /\ all_text_fragments response = "Once upon a time, a dragon..."
  /\ collect_story_text response "" <> Ok (all_text_fragments response).
Proof. vm_compute. repeat split; discriminate. Qed.

Lemma story_text_is_first_parts_witness :
  let response := SChunk (Examples.text_chunk ["Once upon a time, "; "a dragon..."])
                    (SChunk (Examples.text_chunk ["shared."]) SEnd) in
  collect_story_text response "" = Ok "Once upon a time, shared.".
Proof.
  intros response.
  exact (story_text_is_first_parts response eq_refl eq_refl).
Defined.

(** [generateStory] makes one call to the provider and returns normally. *)
Lemma generateStory_returns (h : Host) (prompt : option string) (w : World) :
  exists story,
    generateStory h prompt w
    = (Ok story, logged (OpGenerate storyModel (storyPrompt prompt)) w).
Proof.
  unfold generateStory, try_catch, bind, models_generateContentStream, lift, ret, throw.
  destruct (collect_story_text _ "") as [t|e]; eauto.
Qed.


(* ===================================================================== *)
(** * The log of calls *)
(* ===================================================================== *)

Local Open Scope list_scope.

Lemma image_prompts_app (a b : list Op) :
  image_prompts (a ++ b) = image_prompts a ++ image_prompts b.
Proof.
  induction a as [|op a IH]; [reflexivity|].
  destruct op; simpl; rewrite ?IH; try reflexivity.
  destruct (String.eqb model imageModel); simpl; rewrite ?IH; reflexivity.
Qed.

Lemma image_prompts_local (ops : list Op) :
  forallb local_op ops = true -> image_prompts ops = [].
Proof.
  induction ops as [|op ops IH]; [reflexivity|]. simpl.
  intros [Hop Hops]%andb_true_iff. destruct op; try discriminate; auto.
Qed.

Lemma write_targets_app (a b : list Op) :
  write_targets (a ++ b) = write_targets a ++ write_targets b.
Proof.
  induction a as [|op a IH]; [reflexivity|].
  destruct op; simpl; rewrite ?IH; reflexivity.
Qed.

Section Footprint.

Context `{PathModule} (h : Host).

Lemma local_ret {A} (a : A) : local (ret a).
Proof.
  intros w r w' [= <- <-]. exists []. rewrite app_nil_r. auto.
Qed.

Lemma local_throw {A} (e : exn) : local (@throw A e).
Proof.
  intros w r w' [= <- <-]. exists []. rewrite app_nil_r. auto.
Qed.

Lemma local_lift {A} (r : Res A) : local (lift r).
Proof. destruct r; [apply local_ret | apply local_throw]. Qed.

Lemma local_bind {A B} (m : M A) (k : A -> M B) :
  local m -> (forall a, local (k a)) -> local (bind m k).
Proof.
  intros Hm Hk w r w'. unfold bind.
  destruct (m w) as [[a|e] w1] eqn:Hmw; intros Hr.
  - destruct (Hm _ _ _ Hmw) as (ops1 & H1 & HQ1).
    destruct (Hk a _ _ _ Hr) as (ops2 & H2 & HQ2).
    exists (ops1 ++ ops2). rewrite H2, H1, app_assoc, forallb_app, HQ1, HQ2. auto.
  - injection Hr as <- <-. exact (Hm _ _ _ Hmw).
Qed.

Lemma local_try_catch {A} (m : M A) (k : exn -> M A) :
  local m -> (forall e, local (k e)) -> local (try_catch m k).
Proof.
  intros Hm Hk w r w'. unfold try_catch.
  destruct (m w) as [[a|e] w1] eqn:Hmw; intros Hr.
  - injection Hr as <- <-. exact (Hm _ _ _ Hmw).
  - destruct (Hm _ _ _ Hmw) as (ops1 & H1 & HQ1).
    destruct (Hk e _ _ _ Hr) as (ops2 & H2 & HQ2).
    exists (ops1 ++ ops2). rewrite H2, H1, app_assoc, forallb_app, HQ1, HQ2. auto.
Qed.

Lemma local_existsSync (p : string) : local (fs_existsSync p).
Proof. intros w r w' [= <- <-]. exists []. rewrite app_nil_r. auto. Qed.

Lemma local_mkdirSync (p : string) : local (fs_mkdirSync h p).
Proof.
  intros w r w'. unfold fs_mkdirSync.
  destruct (throws h (log w) (OpMkdir p)); intros [= <- <-];
    exists [OpMkdir p]; auto.
Qed.

Lemma local_writeFileSync (p : string) (payload : Payload) :
  local (fs_writeFileSync h p payload).
Proof.
  intros w r w'. unfold fs_writeFileSync.
  destruct (throws h (log w) (OpWrite p payload)); intros [= <- <-];
    exists [OpWrite p payload]; auto.
Qed.

Lemma local_execFileAsync (command : string) (args : list string) :
  local (execFileAsync h command args).
Proof.
  intros w r w'. unfold execFileAsync.
  destruct (throws h (log w) (OpExec command args)); intros [= <- <-];
    exists [OpExec command args]; auto.
Qed.

(** One step of a footprint proof: a combinator of the monad, a
    primitive call, or a case split on the test the action branches on. *)
Ltac local_step :=
  lazy zeta;
  first
    [ apply local_ret
    | apply local_throw
    | apply local_lift
    | apply local_existsSync
    | apply local_mkdirSync
    | apply local_writeFileSync
    | apply local_execFileAsync
    | assumption
    | apply local_bind; [|intros ?]
    | apply local_try_catch; [|intros ?]
    | match goal with
      | |- local (if ?b then _ else _) => destruct b
      | |- local (match ?x with _ => _ end) => destruct x
      end ].

Lemma local_getDesktopPath : local (getDesktopPath h).
Proof. unfold getDesktopPath. repeat local_step. Qed.

Lemma local_ensureDirectoryExists (d : string) : local (ensureDirectoryExists h d).
Proof. unfold ensureDirectoryExists. repeat local_step. Qed.

Lemma local_saveImageWithProperPath (buffer : list Byte.byte) (fileName : string) :
  local (saveImageWithProperPath h buffer fileName).
Proof.
  pose proof local_getDesktopPath. pose proof local_ensureDirectoryExists.
  unfold saveImageWithProperPath. repeat local_step.
Qed.

Lemma local_saveStoryWithProperPath (story fileName : string) :
  local (saveStoryWithProperPath h story fileName).
Proof.
  pose proof local_getDesktopPath. pose proof local_ensureDirectoryExists.
  unfold saveStoryWithProperPath. repeat local_step.
Qed.

Lemma local_openInBrowser (filePath : string) : local (openInBrowser h filePath).
Proof. unfold openInBrowser. repeat local_step. Qed.

Lemma local_on_inlineData prompt fileName story storyPath payload :
  local (on_inlineData h prompt fileName story storyPath payload).
Proof.
  pose proof local_saveImageWithProperPath. pose proof local_ensureDirectoryExists.
  pose proof local_openInBrowser.
  unfold on_inlineData. repeat local_step.
Qed.

Lemma local_image_loop prompt fileName story storyPath response :
  local (image_loop h prompt fileName story storyPath response).
Proof.
  pose proof local_on_inlineData.
  induction response as [|c rest IH|e]; simpl; repeat local_step.
Qed.

End Footprint.

(* ===================================================================== *)
(** * The handler, step by step *)
(* ===================================================================== *)

Section HandlerSteps.

Context `{PathModule} (h : Host).

Lemma save_is_try_catch (payload : Payload) (fileName : string) :
  save h payload fileName
  = try_catch (first_attempt h payload fileName) (fun _ => retry h payload fileName).
Proof. destruct payload; reflexivity. Qed.

(** The handler after [generateStory] has returned: the missing
    [fileName], the story writer, then the image stream. *)
Lemma handler_cases (a : Arguments) (w w0 : World) (story : string) :
  generateStory h (arg_prompt a) w = (Ok story, w0) ->
  handler h (tool_call a) w =
    match arg_fileName a with
    | None => (Err (boundary (TypeError_reading "replace")), w0)
    | Some f =>
        match saveStoryWithProperPath h story (storyFileName f) w0 with
        | (Err e, w1) => (Err (boundary e), w1)
        | (Ok storyPath, w1) =>
            let prompt := imagePrompt (style_of a) (arg_prompt a) in
            match image_loop h (arg_prompt a) f story storyPath
                    (generateContentStream h imageModel prompt)
                    (logged (OpGenerate imageModel prompt) w1) with
            | (Ok res, w2) => (Ok res, w2)
            | (Err e, w2) => (Err (image_boundary e), w2)
            end
        end
    end.
Proof.
  intros Hstory.
  unfold handler, tool_call, destructure, style_of; simpl.
  unfold try_catch at 1. unfold bind at 1. unfold ret at 1.
  unfold bind at 1. rewrite Hstory.
  destruct (arg_fileName a) as [f|].
  - unfold bind at 1. unfold ret at 1. unfold bind at 1.
    destruct (saveStoryWithProperPath h story (storyFileName f) w0) as [[sp|e] w1].
    + unfold try_catch at 1, bind at 1, models_generateContentStream at 1.
      destruct (image_loop h (arg_prompt a) f story sp _ _) as [[res|e] w2];
        [reflexivity|].
      unfold image_boundary, boundary.
      destruct (instanceof_Error e); reflexivity.
    + unfold boundary. destruct (instanceof_McpError e); reflexivity.
  - reflexivity.
Qed.


(** With no arguments object at all the handler fails before any call
    leaves the process. *)
Lemma handler_without_arguments (w : World) :
  handler h {| req_name := "generate_storybook_image"; req_arguments := None |} w
  = (Err (McpError InternalError
            "Error processing request: Cannot destructure property 'prompt' of 'args' as it is undefined."),
     w).
Proof. reflexivity. Qed.

End HandlerSteps.

(* ===================================================================== *)
(** * Arguments of the tool call *)
(* ===================================================================== *)

(** C1. The handler does not check the required arguments.  With
    [fileName] missing it calls the provider for the story first and only
    then fails, on reading [fileName.replace]; with [prompt] missing it
    does not fail at all: on a host where the provider answers and the
    file system works, the call succeeds with the prompt rendered as
    "undefined". *)
Theorem handler_does_not_validate_arguments :
  inputSchema_required = ["prompt"; "fileName"]
  /\ (forall `{PathModule} (h : Host) (prompt artStyle : option string) (w : World),
      handler h (tool_call {| arg_prompt := prompt; arg_fileName := None;
                              arg_artStyle := artStyle |}) w
      = (Err (McpError InternalError
                "Error processing request: Cannot read properties of undefined (reading 'replace')"),
         logged (OpGenerate storyModel (storyPrompt prompt)) w))
  /\ (let h := Examples.linux_host
                 (SChunk (Examples.text_chunk ["Once upon a time, a dragon..."]) SEnd)
                 (SChunk (Examples.image_chunk (Some "aGk=")) SEnd)
                 "2026-11-02T10:20:30.123Z" Examples.never_throws in
      let '(r, w') := handler (H := SimplePosix.path) h
                        (Examples.request_with None (Some "dragon1") None)
                        Examples.empty_world in
      (match r with Ok res => success res | Err _ => false end) = true
      /\ write_targets (log w')
         = ["/srv/storybook-images/dragon1_story.txt";
            "/srv/storybook-images/dragon1_2026-11-02T10-20-30-123Z.png";
            "/srv/storybook-images/dragon1_2026-11-02T10-20-30-123Z_preview.html"]
      /\ image_prompts (log w') = [imagePrompt "3d cartoon" None]).
Proof.
  split; [reflexivity|]. split.
  - intros P h prompt artStyle w.
    destruct (generateStory_returns h prompt w) as [story Hstory].
    rewrite (handler_cases h {| arg_prompt := prompt; arg_fileName := None;
                                arg_artStyle := artStyle |} w _ story Hstory).
    reflexivity.
  - vm_compute. repeat split; reflexivity.
Qed.

(** The image prompts sent by one call of the tool: none, or the one
    built from the destructured art style. *)
Lemma handler_image_prompts `{PathModule} (h : Host) (a : Arguments) (w : World) :
  exists ops,
    log (snd (handler h (tool_call a) w)) = log w ++ ops
    /\ (image_prompts ops = []
        \/ image_prompts ops = [imagePrompt (style_of a) (arg_prompt a)])
    /\ (forall res, fst (handler h (tool_call a) w) = Ok res ->
        image_prompts ops = [imagePrompt (style_of a) (arg_prompt a)]).
Proof.
  destruct (generateStory_returns h (arg_prompt a) w) as [story Hstory].
  rewrite (handler_cases h _ w _ story Hstory).
  set (g := OpGenerate storyModel (storyPrompt (arg_prompt a))).
  destruct (arg_fileName a) as [f|].
  - destruct (saveStoryWithProperPath h story (storyFileName f) (logged g w))
      as [[sp|e] w1] eqn:Hsave;
      destruct (local_saveStoryWithProperPath h _ _ _ _ _ Hsave) as (ops1 & Hl1 & Hq1).
    + lazy zeta.
      set (ip := imagePrompt (style_of a) (arg_prompt a)).
      destruct (image_loop h (arg_prompt a) f story sp _ _) as [[res|e] w2] eqn:Hloop;
        destruct (local_image_loop h _ _ _ _ _ _ _ _ Hloop) as (ops2 & Hl2 & Hq2);
        exists ([g] ++ ops1 ++ [OpGenerate imageModel ip] ++ ops2);
        simpl fst; simpl snd;
        (split; [rewrite Hl2; simpl; rewrite Hl1; simpl; rewrite <- !app_assoc; reflexivity|]);
        rewrite !image_prompts_app, (image_prompts_local ops1 Hq1),
          (image_prompts_local ops2 Hq2); simpl; auto.
    + exists ([g] ++ ops1). simpl fst; simpl snd.
      split; [rewrite Hl1; simpl; rewrite <- !app_assoc; reflexivity|].
      rewrite image_prompts_app, (image_prompts_local ops1 Hq1). simpl.
      split; [auto | discriminate].
  - exists [g]. simpl. split; [reflexivity|]. split; [auto | discriminate].
Qed.

(** C7, as amended.  The default art style is used when [artStyle] is
    absent; a string that is supplied is put in the image prompt as it
    is, whether or not it belongs to the enumeration of the schema.
    Every image prompt a call sends is the one built from that style, and
    a call that succeeds has sent exactly one. *)
Theorem art_style_default_only_when_absent :
  forall `{PathModule} (h : Host) (prompt fileName artStyle : option string) (w : World),
    let a := {| arg_prompt := prompt; arg_fileName := fileName; arg_artStyle := artStyle |} in
    let style := match artStyle with Some s => s | None => "3d cartoon" end in
    exists ops,
      log (snd (handler h (tool_call a) w)) = log w ++ ops
      /\ (image_prompts ops = [] \/ image_prompts ops = [imagePrompt style prompt])
      /\ (forall res, fst (handler h (tool_call a) w) = Ok res ->
          image_prompts ops = [imagePrompt style prompt]).
Proof.
  intros P h prompt fileName artStyle w a style.
  exact (handler_image_prompts h a w).
Qed.

(** C7 as stated fails: a style outside the enumeration reaches the
    image prompt, and the default does not replace it. *)
Lemma art_style_outside_enum_is_used :
  let h := Examples.linux_host SEnd (SChunk (Examples.image_chunk (Some "aGk=")) SEnd)
             "2026-11-02T10:20:30.123Z" Examples.never_throws in
  let request := Examples.request_with (Some "a dragon") (Some "dragon1")
                   (Some "oil painting") in
  bool_decide ("oil painting" ∈ artStyle_enum) = false
  /\ image_prompts (log (snd (handler (H := SimplePosix.path) h request Examples.empty_world)))
     = [imagePrompt "oil painting" (Some "a dragon")]
  /\ image_prompts (log (snd (handler (H := SimplePosix.path) h request Examples.empty_world)))
     <> [imagePrompt "3d cartoon" (Some "a dragon")].
Proof. vm_compute. repeat split; discriminate. Qed.

(* ===================================================================== *)
(** * The writers *)
(* ===================================================================== *)

Section Writers.

Context `{PathModule} (h : Host).

Local Open Scope js_scope.

(** [getDesktopPath] returns normally and leaves the world as it is. *)
Lemma getDesktopPath_pure (w : World) :
  exists p, getDesktopPath h w = (Ok p, w).
Proof.
  unfold getDesktopPath, try_catch, bind, lift, ret, throw, fs_existsSync.
  destruct (os_userInfo_username h); [|eauto].
  repeat match goal with
         | |- context [if ?b then _ else _] => destruct b
         end; eauto.
Qed.

(** A directory check followed by a write: what the log and the files
    can look like afterwards. *)
Lemma dir_then_write (d p : string) (payload : Payload) (w w' : World) (r : Res string) :
  (ensureDirectoryExists h d ;;; fs_writeFileSync h p payload ;;; ret p) w = (r, w') ->
  exists pre,
    write_targets pre = []
    /\ ((exists e, r = Err e /\ log w' = log w ++ pre /\ files w' = files w)
        \/ (exists e, r = Err e /\ log w' = log w ++ pre ++ [OpWrite p payload]
                      /\ files w' = files w)
        \/ (r = Ok p /\ log w' = log w ++ pre ++ [OpWrite p payload]
            /\ files w' = <[p := payload]> (files w))).
Proof.
  unfold ensureDirectoryExists, bind, try_catch, fs_existsSync, fs_mkdirSync,
    fs_writeFileSync, ret, throw, logged.
  destruct (existsSync w d); simpl.
  - destruct (throws h (log w) (OpWrite p payload)) as [e|];
      intros [= <- <-]; exists []; (split; [reflexivity|]); simpl; eauto 10.
  - destruct (throws h (log w) (OpMkdir d)) as [e|]; simpl.
    + intros [= <- <-]. exists [OpMkdir d]. split; [reflexivity|]. simpl. eauto 10.
    + destruct (throws h (log w ++ [OpMkdir d]) (OpWrite p payload)) as [e|];
        intros [= <- <-]; exists [OpMkdir d]; (split; [reflexivity|]); simpl;
        rewrite <- !app_assoc; simpl; eauto 10.
Qed.

(** When no call throws, the check and the write go through. *)
Lemma dir_then_write_ok (d p : string) (payload : Payload) (w : World) :
  (forall l op, throws h l op = None) ->
  exists w',
    (ensureDirectoryExists h d ;;; fs_writeFileSync h p payload ;;; ret p) w = (Ok p, w').
Proof.
  intros Hno.
  unfold ensureDirectoryExists, bind, try_catch, fs_existsSync, fs_mkdirSync,
    fs_writeFileSync, ret, throw, logged.
  destruct (existsSync w d); simpl; rewrite ?Hno; simpl; rewrite ?Hno; eauto.
Qed.

(** The retry: one directory check and one write into [output]. *)
Lemma retry_cases (payload : Payload) (fileName : string) (w w' : World) (r : Res string) :
  retry h payload fileName w = (r, w') ->
  let fallbackPath := path_join [path_join [process_cwd h; "output"]; fileName] in
  exists pre,
    write_targets pre = []
    /\ ((exists e, r = Err e /\ log w' = log w ++ pre /\ files w' = files w)
        \/ (exists e, r = Err e /\ log w' = log w ++ pre ++ [OpWrite fallbackPath payload]
                      /\ files w' = files w)
        \/ (r = Ok fallbackPath /\ log w' = log w ++ pre ++ [OpWrite fallbackPath payload]
            /\ files w' = <[fallbackPath := payload]> (files w))).
Proof. unfold retry. intros Hr. exact (dir_then_write _ _ _ _ _ _ Hr). Qed.

(** The first attempt: one directory check and one write below the
    directory selected by the save mode. *)
Lemma first_attempt_cases (payload : Payload) (fileName : string) (w w' : World)
    (r : Res string) :
  first_attempt h payload fileName w = (r, w') ->
  exists p pre,
    write_targets pre = []
    /\ ((exists e, r = Err e /\ log w' = log w ++ pre /\ files w' = files w)
        \/ (exists e, r = Err e /\ log w' = log w ++ pre ++ [OpWrite p payload]
                      /\ files w' = files w)
        \/ (r = Ok p /\ log w' = log w ++ pre ++ [OpWrite p payload]
            /\ files w' = <[p := payload]> (files w))).
Proof.
  unfold first_attempt.
  destruct (save_to_desktop h).
  - destruct (getDesktopPath_pure w) as [desktop Hd].
    unfold bind at 1. rewrite Hd. lazy zeta. intros Hr.
    eexists. exact (dir_then_write _ _ _ _ _ _ Hr).
  - lazy zeta. intros Hr. eexists. exact (dir_then_write _ _ _ _ _ _ Hr).
Qed.

Lemma first_attempt_ok (payload : Payload) (fileName : string) (w : World) :
  (forall l op, throws h l op = None) ->
  exists p w',
    first_attempt h payload fileName w = (Ok p, w')
    /\ (save_to_desktop h = false -> p = local_path h fileName).
Proof.
  intros Hno. unfold first_attempt.
  destruct (save_to_desktop h).
  - destruct (getDesktopPath_pure w) as [desktop Hd].
    unfold bind at 1. rewrite Hd. lazy zeta.
    destruct (dir_then_write_ok (path_join [desktop; "storybook-images"])
                (path_normalize (path_join [path_join [desktop; "storybook-images"]; fileName]))
                payload w Hno) as [w' Hw].
    eexists _, w'. split; [exact Hw | discriminate].
  - lazy zeta.
    destruct (dir_then_write_ok (path_join [process_cwd h; "storybook-images"])
                (local_path h fileName) payload w Hno) as [w' Hw].
    exists (local_path h fileName), w'. split; [exact Hw | reflexivity].
Qed.

(** A writer that returns has written its payload at the returned
    path, by the last write it attempted. *)
Lemma save_returns (payload : Payload) (fileName : string) (w w' : World) (p : string) :
  save h payload fileName w = (Ok p, w') ->
  files w' !! p = Some payload
  /\ exists pre, log w' = log w ++ pre ++ [OpWrite p payload].
Proof.
  rewrite save_is_try_catch. unfold try_catch.
  destruct (first_attempt h payload fileName w) as [[q|e] w1] eqn:H1.
  - intros [= -> ->].
    destruct (first_attempt_cases _ _ _ _ _ H1) as (q & pre & Hpre & Hc).
    destruct Hc as [(e & He & _)|[(e & He & _)|(Hq & Hlog & Hfiles)]]; try discriminate.
    injection Hq as ->. rewrite Hfiles, lookup_insert_eq. eauto.
  - intros H2.
    destruct (first_attempt_cases _ _ _ _ _ H1) as (q & pre1 & _ & Hc1).
    destruct (retry_cases _ _ _ _ _ H2) as (pre2 & _ & Hc2).
    destruct Hc2 as [(e2 & He2 & _)|[(e2 & He2 & _)|(Hq & Hlog2 & Hfiles2)]];
      try discriminate.
    injection Hq as ->. rewrite Hfiles2, lookup_insert_eq. split; [reflexivity|].
    destruct Hc1 as [(e1 & _ & Hlog1 & _)|[(e1 & _ & Hlog1 & _)|(Hq & _)]];
      try discriminate; rewrite Hlog2, Hlog1.
    + exists (pre1 ++ pre2). rewrite <- !app_assoc. reflexivity.
    + exists (pre1 ++ [OpWrite q payload] ++ pre2). rewrite <- !app_assoc. reflexivity.
Qed.

(** When no call throws, a writer returns after a single write. *)
Lemma save_ok (payload : Payload) (fileName : string) (w : World) :
  (forall l op, throws h l op = None) ->
  exists p w' pre,
    save h payload fileName w = (Ok p, w')
    /\ write_targets pre = []
    /\ log w' = log w ++ pre ++ [OpWrite p payload]
    /\ (save_to_desktop h = false -> p = local_path h fileName).
Proof.
  intros Hno. rewrite save_is_try_catch. unfold try_catch.
  destruct (first_attempt_ok payload fileName w Hno) as (p & w' & H1 & Hlocal).
  rewrite H1. exists p, w'.
  destruct (first_attempt_cases _ _ _ _ _ H1) as (q & pre & Hpre & Hc).
  destruct Hc as [(e & He & _)|[(e & He & _)|(Hq & Hlog & _)]]; try discriminate.
  injection Hq as ->. eauto.
Qed.

End Writers.

(** C5. When the first attempt of a writer fails, for whatever reason,
    the writer runs the retry once, from the state the failed attempt
    left: its outcome is the outcome of the retry, error included.  The
    retry attempts one write, at [fileName] below [output] in the working
    directory (none when that directory cannot be created, and then it
    fails); when it returns, the payload is at that path. *)
Theorem save_retries_once_in_output :
  forall `{PathModule} (h : Host) (payload : Payload) (fileName : string)
         (w w1 : World) (e : exn),
    first_attempt h payload fileName w = (Err e, w1) ->
    let fallbackPath := path_join [path_join [process_cwd h; "output"]; fileName] in
    exists r w2 ops,
      save h payload fileName w = (r, w2)
      /\ retry h payload fileName w1 = (r, w2)
      /\ log w2 = log w1 ++ ops
      /\ (write_targets ops = [fallbackPath]
          \/ (write_targets ops = [] /\ exists e', r = Err e'))
      /\ (forall p, r = Ok p -> p = fallbackPath /\ files w2 !! p = Some payload).
Proof.
  intros P h payload fileName w w1 e H1 fallbackPath.
  destruct (retry h payload fileName w1) as [r w2] eqn:H2.
  destruct (retry_cases h _ _ _ _ _ H2) as (pre & Hpre & Hc).
  fold fallbackPath in Hc.
  assert (Hsave : save h payload fileName w = (r, w2)).
  { rewrite save_is_try_catch. unfold try_catch. rewrite H1. exact H2. }
  destruct Hc as [(e' & -> & Hlog & _)|[(e' & -> & Hlog & _)|(-> & Hlog & Hfiles)]].
  - exists (Err e'), w2, pre.
    split; [exact Hsave|]. split; [reflexivity|]. split; [exact Hlog|].
    split; [right; eauto|]. intros p Hp. discriminate.
  - exists (Err e'), w2, (pre ++ [OpWrite fallbackPath payload]).
    split; [exact Hsave|]. split; [reflexivity|]. split; [exact Hlog|].
    split; [left; rewrite write_targets_app, Hpre; reflexivity|].
    intros p Hp. discriminate.
  - exists (Ok fallbackPath), w2, (pre ++ [OpWrite fallbackPath payload]).
    split; [exact Hsave|]. split; [reflexivity|]. split; [exact Hlog|].
    split; [left; rewrite write_targets_app, Hpre; reflexivity|].
    intros p [= <-]. split; [reflexivity|]. rewrite Hfiles. apply lookup_insert_eq.
Qed.

Lemma save_retries_once_in_output_witness :
  let h := Examples.linux_host SEnd SEnd "2026-11-02T10:20:30.123Z"
             Examples.primary_write_throws in
  exists r w2 ops,
    save (H := SimplePosix.path) h (Utf8 "Once upon a time") "dragon1_story.txt"
      Examples.empty_world = (r, w2)
    /\ retry (H := SimplePosix.path) h (Utf8 "Once upon a time") "dragon1_story.txt"
         (snd (first_attempt (H := SimplePosix.path) h (Utf8 "Once upon a time")
                 "dragon1_story.txt" Examples.empty_world)) = (r, w2)
    /\ log w2
       = log (snd (first_attempt (H := SimplePosix.path) h (Utf8 "Once upon a time")
                     "dragon1_story.txt" Examples.empty_world)) ++ ops
    /\ (write_targets ops = ["/srv/output/dragon1_story.txt"]
        \/ (write_targets ops = [] /\ exists e', r = Err e'))
    /\ (forall p, r = Ok p ->
        p = "/srv/output/dragon1_story.txt"
        /\ files w2 !! p = Some (Utf8 "Once upon a time")).
Proof.
  intros h.
  exact (save_retries_once_in_output (H := SimplePosix.path) h (Utf8 "Once upon a time")
           "dragon1_story.txt" Examples.empty_world
           (snd (first_attempt (H := SimplePosix.path) h (Utf8 "Once upon a time")
                   "dragon1_story.txt" Examples.empty_world))
           (Error "EACCES: permission denied") eq_refl).
Defined.

(** A writer that fails twice makes the call of the tool fail: for the
    story at the outer boundary of the handler, for the image at the
    boundary around image generation. *)
Lemma handler_fails_when_story_is_not_saved `{PathModule} (h : Host) (a : Arguments)
    (f story : string) (w w0 w1 : World) (e : exn) :
  arg_fileName a = Some f ->
  generateStory h (arg_prompt a) w = (Ok story, w0) ->
  saveStoryWithProperPath h story (storyFileName f) w0 = (Err e, w1) ->
  handler h (tool_call a) w = (Err (boundary e), w1).
Proof.
  intros Hf Hstory Hsave. rewrite (handler_cases h a w w0 story Hstory), Hf, Hsave.
  reflexivity.
Qed.

Lemma on_inlineData_fails_when_image_is_not_saved `{PathModule} (h : Host)
    (prompt : option string) (fileName story storyPath : string) (found : InlineData)
    (w w1 : World) (e : exn) :
  saveImageWithProperPath h
    (Base64.decode (Js.template (Js.or_else (data found) (Some ""))))
    (outputFileName fileName (Date_toISOString h)) w = (Err e, w1) ->
  on_inlineData h prompt fileName story storyPath found w = (Err e, w1).
Proof.
  intros Hsave. unfold on_inlineData. lazy zeta. unfold bind at 1. rewrite Hsave.
  reflexivity.
Qed.

(* ===================================================================== *)
(** * The image stream *)
(* ===================================================================== *)

Lemma no_inlineData_at_part_0 (chunk : Chunk) (part : Part) (ps : list Part) :
  contains_inlineData chunk = false ->
  guarded_parts chunk = Ok (Some (part :: ps)) ->
  inlineData part = None.
Proof.
  unfold contains_inlineData, guarded_parts. intros Hno.
  destruct (candidates chunk) as [[|c0 cs]|]; try discriminate.
  cbn [existsb] in Hno. cbv beta in Hno.
  destruct (content c0) as [ct|]; try discriminate.
  intros [= Hparts]. rewrite Hparts in Hno. cbn [existsb] in Hno.
  destruct (inlineData part); [|reflexivity].
  rewrite bool_decide_true in Hno by eauto. discriminate.
Qed.

Section ImageStream.

Context `{PathModule} (h : Host).
Variables (prompt : option string) (fileName story storyPath : string).

(** A stream that ends normally without inline data: the loop throws
    and the world is as before. *)
Lemma image_loop_without_inlineData (response : Stream) (w : World) :
  completes response = true ->
  forallb (fun c => negb (contains_inlineData c)) (chunks_of response) = true ->
  exists e,
    image_loop h prompt fileName story storyPath response w = (Err e, w)
    /\ instanceof_Error e = true
    /\ (forallb readable (chunks_of response) = true ->
        e = McpError InternalError "No image data received from the API").
Proof.
  induction response as [|c rest IH|e]; simpl; intros Hend Hno.
  - eexists. split; [reflexivity|]. split; reflexivity.
  - apply andb_true_iff in Hno as [Hc%negb_true_iff Hrest].
    unfold readable.
    destruct (guarded_parts c) as [[[|part ps]|]|e] eqn:Hg.
    + eexists. split; [reflexivity|]. split; [reflexivity|]. discriminate.
    + rewrite (no_inlineData_at_part_0 c part ps Hc Hg).
      destruct (IH Hend Hrest) as (e & He & Hi & Hm).
      exists e. split; [exact He|]. split; [exact Hi|]. exact Hm.
    + destruct (IH Hend Hrest) as (e & He & Hi & Hm).
      exists e. split; [exact He|]. split; [exact Hi|]. exact Hm.
    + unfold guarded_parts in Hg.
      destruct (candidates c) as [[|c0 cs]|]; try discriminate.
      * injection Hg as <-. eexists. split; [reflexivity|]. split; [reflexivity|].
        discriminate.
      * destruct (content c0); discriminate.
  - discriminate.
Qed.

(** The loop stops at the first chunk whose part 0 carries inline data
    and runs the body on it. *)
Lemma image_loop_first_inlineData (response : Stream) (found : InlineData) (w : World) :
  first_inlineData response = Some found ->
  image_loop h prompt fileName story storyPath response w
  = on_inlineData h prompt fileName story storyPath found w.
Proof.
  induction response as [|c rest IH|e]; simpl; try discriminate.
  destruct (guarded_parts c) as [[[|part ps]|]|e]; try discriminate.
  - destruct (inlineData part) as [d|].
    + intros [= ->]. reflexivity.
    + exact IH.
  - exact IH.
Qed.

End ImageStream.

(** C3. When the image stream ends normally and no chunk carries inline
    data, the call fails with an [McpError] of code [InternalError] (its
    message names the missing image data when every chunk is readable),
    nothing is written after the story, and the story is still in its
    file. *)
Theorem no_image_data_is_an_error :
  forall `{PathModule} (h : Host) (a : Arguments) (f story storyPath : string)
         (w w0 w1 : World),
    arg_fileName a = Some f ->
    generateStory h (arg_prompt a) w = (Ok story, w0) ->
    saveStoryWithProperPath h story (storyFileName f) w0 = (Ok storyPath, w1) ->
    let prompt := imagePrompt (style_of a) (arg_prompt a) in
    let response := generateContentStream h imageModel prompt in
    completes response = true ->
    forallb (fun c => negb (contains_inlineData c)) (chunks_of response) = true ->
    exists msg w2,
      handler h (tool_call a) w = (Err (McpError InternalError msg), w2)
      /\ (forallb readable (chunks_of response) = true ->
          msg = "Failed to generate image: MCP error -32603: No image data received from the API")
      /\ log w2 = log w1 ++ [OpGenerate imageModel prompt]
      /\ dirs w2 = dirs w1
      /\ files w2 = files w1
      /\ files w2 !! storyPath = Some (Utf8 story).
Proof.
  intros P h a f story storyPath w w0 w1 Hf Hstory Hsave prompt response Hend Hno.
  rewrite (handler_cases h a w w0 story Hstory), Hf, Hsave. lazy zeta.
  fold prompt. fold response.
  destruct (image_loop_without_inlineData h (arg_prompt a) f story storyPath response
              (logged (OpGenerate imageModel prompt) w1) Hend Hno) as (e & He & Hi & Hm).
  rewrite He. unfold image_boundary. rewrite Hi.
  exists ("Failed to generate image: " +:+ message e),
         (logged (OpGenerate imageModel prompt) w1).
  split; [reflexivity|].
  split; [intros Hr; rewrite (Hm Hr); reflexivity|].
  split; [reflexivity|]. split; [reflexivity|]. split; [reflexivity|].
  apply (save_returns h (Utf8 story) (storyFileName f) w0 w1 storyPath Hsave).
Qed.

Lemma no_image_data_is_an_error_witness :
  let h := Examples.linux_host
             (SChunk (Examples.text_chunk ["Once upon a time, a dragon..."]) SEnd)
             (SChunk (Examples.text_chunk ["no picture today"]) SEnd)
             "2026-11-02T10:20:30.123Z" Examples.never_throws in
  exists msg w2,
    handler (H := SimplePosix.path) h Examples.dragon Examples.empty_world
    = (Err (McpError InternalError msg), w2)
    /\ msg = "Failed to generate image: MCP error -32603: No image data received from the API"
    /\ write_targets (log w2) = ["/srv/storybook-images/dragon1_story.txt"]
    /\ files w2 !! "/srv/storybook-images/dragon1_story.txt"
       = Some (Utf8 "Once upon a time, a dragon...").
Proof.
  intros h.
  pose (a := {| arg_prompt := Some "a dragon learns to share";
                arg_fileName := Some "dragon1"; arg_artStyle := Some "watercolor" |}).
  pose (w0 := snd (generateStory h (arg_prompt a) Examples.empty_world)).
  pose (w1 := snd (saveStoryWithProperPath (H := SimplePosix.path) h
                     "Once upon a time, a dragon..." (storyFileName "dragon1") w0)).
  destruct (no_image_data_is_an_error (H := SimplePosix.path) h a "dragon1"
              "Once upon a time, a dragon..." "/srv/storybook-images/dragon1_story.txt"
              Examples.empty_world w0 w1 eq_refl eq_refl eq_refl eq_refl eq_refl)
    as (msg & w2 & Hh & Hmsg & Hlog & _ & _ & Hfile).
  exists msg, w2.
  split; [exact Hh|]. split; [exact (Hmsg eq_refl)|].
  split; [rewrite Hlog; reflexivity | exact Hfile].
Defined.

(* ===================================================================== *)
(** * The successful path *)
(* ===================================================================== *)

Section Success.

Context `{PathModule} (h : Host).
Hypothesis never_throws : forall l op, throws h l op = None.

Lemma ensureDirectoryExists_ok (d : string) (w : World) :
  exists w' pre,
    ensureDirectoryExists h d w = (Ok tt, w')
    /\ log w' = log w ++ pre /\ write_targets pre = [].
Proof.
  unfold ensureDirectoryExists, bind, try_catch, fs_existsSync, fs_mkdirSync, ret.
  destruct (existsSync w d).
  - exists w, []. rewrite app_nil_r. auto.
  - rewrite never_throws. eexists _, [OpMkdir d]. simpl. auto.
Qed.

Lemma fs_writeFileSync_ok (p : string) (payload : Payload) (w : World) :
  exists w',
    fs_writeFileSync h p payload w = (Ok tt, w')
    /\ log w' = log w ++ [OpWrite p payload].
Proof.
  unfold fs_writeFileSync. rewrite never_throws. eexists. simpl. auto.
Qed.

(** Opening the preview never fails the call and writes nothing. *)
Lemma openInBrowser_returns (p : string) (w : World) :
  exists w' ops,
    try_catch (openInBrowser h p) (fun _ => ret tt) w = (Ok tt, w')
    /\ log w' = log w ++ ops /\ write_targets ops = [].
Proof.
  unfold openInBrowser, try_catch, execFileAsync, ret, logged.
  destruct (_ && _ && _).
  - exists w, []. rewrite app_nil_r. auto.
  - lazy zeta.
    match goal with
    | |- context [throws h (log w) ?op] =>
        destruct (throws h (log w) op); exists (logged op w), [op]; simpl; auto
    end.
Qed.

Lemma on_inlineData_ok (prompt : option string) (fileName story sp : string)
    (found : InlineData) (w : World) :
  exists res w' ops,
    on_inlineData h prompt fileName story sp found w = (Ok res, w')
    /\ success res = true
    /\ storyPath res = sp
    /\ log w' = log w ++ ops
    /\ write_targets ops = [imagePath res; htmlPath res]
    /\ In (OpWrite (imagePath res)
             (Buffer (Base64.decode (Js.template (Js.or_else (data found) (Some ""))))))
          ops
    /\ (save_to_desktop h = false ->
        imagePath res = local_path h (outputFileName fileName (Date_toISOString h))).
Proof.
  unfold on_inlineData. lazy zeta.
  set (buffer := Base64.decode _).
  set (name := outputFileName fileName (Date_toISOString h)).
  destruct (save_ok h (Buffer buffer) name w never_throws)
    as (p & w1 & pre1 & Hsave & Hpre1 & Hlog1 & Hlocal).
  simpl in Hsave. unfold bind at 1. rewrite Hsave.
  set (hp := path_join [path_dirname p; htmlFileName name]).
  destruct (ensureDirectoryExists_ok (path_dirname hp) w1) as (w2 & pre2 & He & Hlog2 & Hpre2).
  unfold bind at 1. rewrite He.
  destruct (fs_writeFileSync_ok hp (Utf8 (htmlContent prompt p story sp)) w2)
    as (w3 & Hw & Hlog3).
  unfold bind at 1. rewrite Hw.
  destruct (openInBrowser_returns hp w3) as (w4 & ops4 & Ho & Hlog4 & Hops4).
  unfold bind at 1. rewrite Ho. unfold ret.
  eexists _, w4, _. split; [reflexivity|]. simpl.
  split; [reflexivity|]. split; [reflexivity|].
  split; [rewrite Hlog4, Hlog3, Hlog2, Hlog1, <- !app_assoc; reflexivity|].
  split; [rewrite !write_targets_app, Hpre1, Hpre2, Hops4; reflexivity|].
  split; [apply in_or_app; right; left; reflexivity | exact Hlocal].
Qed.

(** A call whose image stream reaches inline data succeeds when no
    call throws: the story, the image and the preview are written, in
    this order, at the paths of the result. *)
Lemma handler_success (a : Arguments) (f : string) (found : InlineData) (w : World) :
  arg_fileName a = Some f ->
  first_inlineData
    (generateContentStream h imageModel (imagePrompt (style_of a) (arg_prompt a)))
  = Some found ->
  exists res w' ops,
    handler h (tool_call a) w = (Ok res, w')
    /\ success res = true
    /\ log w' = log w ++ ops
    /\ write_targets ops = [storyPath res; imagePath res; htmlPath res]
    /\ In (OpWrite (imagePath res)
             (Buffer (Base64.decode (Js.template (Js.or_else (data found) (Some ""))))))
          ops
    /\ (save_to_desktop h = false ->
        storyPath res = local_path h (storyFileName f)
        /\ imagePath res = local_path h (outputFileName f (Date_toISOString h))).
Proof.
  intros Hf Hfirst.
  destruct (generateStory_returns h (arg_prompt a) w) as [story Hstory].
  rewrite (handler_cases h a w _ story Hstory), Hf.
  destruct (save_ok h (Utf8 story) (storyFileName f)
              (logged (OpGenerate storyModel (storyPrompt (arg_prompt a))) w) never_throws)
    as (sp & w1 & pre1 & Hsave & Hpre1 & Hlog1 & Hlocal1).
  simpl in Hsave. rewrite Hsave. lazy zeta.
  set (prompt := imagePrompt (style_of a) (arg_prompt a)) in *.
  rewrite (image_loop_first_inlineData h _ _ _ _ _ found _ Hfirst).
  destruct (on_inlineData_ok (arg_prompt a) f story sp found
              (logged (OpGenerate imageModel prompt) w1))
    as (res & w2 & ops2 & Hin & Hsuccess & Hsp & Hlog2 & Htargets & Hwrite & Hlocal2).
  rewrite Hin.
  exists res, w2,
    ([OpGenerate storyModel (storyPrompt (arg_prompt a))] ++ pre1
       ++ [OpWrite sp (Utf8 story)] ++ [OpGenerate imageModel prompt] ++ ops2).
  split; [reflexivity|]. split; [exact Hsuccess|].
  split.
  { rewrite Hlog2. simpl. rewrite Hlog1. simpl. rewrite <- !app_assoc. reflexivity. }
  split.
  { rewrite !write_targets_app, Hpre1, Htargets, Hsp. reflexivity. }
  split.
  { apply in_or_app. right. apply in_or_app. right. right. right. exact Hwrite. }
  intros Hl. rewrite Hsp. auto.
Qed.

End Success.

(** C10. When the inline data of the first chunk that carries some has
    no [data], or an empty one, and no file-system call throws, the
    handler decodes it to the empty buffer, writes it as the image file
    and returns a success result: three writes are attempted, at the
    story, image and preview paths of the result. *)
Theorem empty_image_payload_is_a_success :
  forall `{PathModule} (h : Host) (a : Arguments) (f : string) (found : InlineData)
         (w : World),
    arg_fileName a = Some f ->
    (forall l op, throws h l op = None) ->
    first_inlineData
      (generateContentStream h imageModel (imagePrompt (style_of a) (arg_prompt a)))
    = Some found ->
    (data found = None \/ data found = Some "") ->
    exists res w' ops,
      handler h (tool_call a) w = (Ok res, w')
      /\ success res = true
      /\ log w' = log w ++ ops
      /\ write_targets ops = [storyPath res; imagePath res; htmlPath res]
      /\ In (OpWrite (imagePath res) (Buffer [])) ops.
Proof.
  intros P h a f found w Hf Hno Hfirst Hdata.
  destruct (handler_success h Hno a f found w Hf Hfirst)
    as (res & w' & ops & Hh & Hsuccess & Hlog & Htargets & Hwrite & _).
  exists res, w', ops.
  assert (Hempty : Base64.decode (Js.template (Js.or_else (data found) (Some ""))) = []).
  { destruct Hdata as [-> | ->]; reflexivity. }
  rewrite Hempty in Hwrite. auto.
Qed.

Lemma empty_image_payload_is_a_success_witness :
  let h := Examples.linux_host
             (SChunk (Examples.text_chunk ["Once upon a time, a dragon..."]) SEnd)
             (SChunk (Examples.text_chunk ["here is your picture"])
                (SChunk (Examples.image_chunk None) SEnd))
             "2026-11-02T10:20:30.123Z" Examples.never_throws in
  exists res w' ops,
    handler (H := SimplePosix.path) h Examples.dragon Examples.empty_world = (Ok res, w')
    /\ success res = true
    /\ log w' = log Examples.empty_world ++ ops
    /\ write_targets ops = [storyPath res; imagePath res; htmlPath res]
    /\ In (OpWrite (imagePath res) (Buffer [])) ops.
Proof.
  intros h.
  exact (empty_image_payload_is_a_success (H := SimplePosix.path) h
           {| arg_prompt := Some "a dragon learns to share";
              arg_fileName := Some "dragon1"; arg_artStyle := Some "watercolor" |}
           "dragon1" {| data := None; mimeType := Some "image/png" |}
           Examples.empty_world eq_refl (fun _ _ => eq_refl) eq_refl
           (or_introl eq_refl)).
Defined.

(* ===================================================================== *)
(** * The path resolver *)
(* ===================================================================== *)

Lemma existsSync_empty (w : World) : existsSync w "" = false.
Proof. reflexivity. Qed.




(* ===================================================================== *)
(** * File names *)
(* ===================================================================== *)



Lemma matches_pattern_length (pattern : string) :
  forall s, matches_pattern pattern s = true -> String.length s = String.length pattern.
Proof.
  induction pattern as [|p ps IH]; intros [|c s]; simpl; try discriminate; [reflexivity|].
  intros [_ Hs]%andb_true_iff. f_equal. exact (IH s Hs).
Qed.

Lemma replace_colon_dot_length (s : string) :
  String.length (Js.replace_colon_dot s) = String.length s.
Proof. induction s as [|c s IH]; simpl; [reflexivity | f_equal; exact IH]. Qed.





(* ===================================================================== *)
(** * Further properties: names of the artifacts *)
(* ===================================================================== *)

Lemma endsWith_app (a suffix : string) : Js.endsWith (a +:+ suffix) suffix = true.
Proof.
  induction a as [|c a IH].
  - change ("" +:+ suffix) with suffix.
    destruct suffix; [reflexivity|]. cbn [Js.endsWith]. rewrite String.eqb_refl.
    reflexivity.
  - rewrite app_cons. cbn [Js.endsWith]. rewrite IH. apply orb_true_r.
Qed.

Lemma endsWith_inv (s suffix : string) :
  Js.endsWith s suffix = true -> exists a, s = a +:+ suffix.
Proof.
  induction s as [|c s IH]; cbn [Js.endsWith].
  - rewrite orb_false_r. intros <-%String.eqb_eq. exists "". reflexivity.
  - intros [<-%String.eqb_eq | Hs]%orb_true_iff.
    + exists "". reflexivity.
    + destruct (IH Hs) as [a ->]. exists (String c a). reflexivity.
Qed.

(** X1. The name of the image file always ends in [.png]; it is the
    [fileName] itself exactly when [fileName] already ends in [.png]. *)
Theorem outputFileName_ends_in_png :
  forall fileName iso : string,
    Js.endsWith (outputFileName fileName iso) ".png" = true
    /\ (outputFileName fileName iso = fileName <-> Js.endsWith fileName ".png" = true).
Proof.
  intros fileName iso. unfold outputFileName.
  destruct (Js.endsWith fileName ".png") eqn:Hpng.
  - split; [exact Hpng | split; reflexivity].
  - split.
    + rewrite <- !app_assoc_str. apply endsWith_app.
    + split; [|discriminate]. intros Heq.
      rewrite <- Heq, <- !app_assoc_str, endsWith_app in Hpng. discriminate.
Qed.

(** X2. The timestamp put in file names has the length of the ISO string
    and holds neither a colon nor a dot, whatever the clock returns. *)
Theorem timestamp_has_no_colon_or_dot :
  forall iso : string,
    String.length (timestamp iso) = String.length iso
    /\ string_forall timestamp_char (timestamp iso) = true.
Proof.
  intros iso. unfold timestamp. split; [apply replace_colon_dot_length|].
  induction iso as [|c iso IH]; [reflexivity|]. simpl. rewrite IH, andb_true_r.
  unfold timestamp_char.
  destruct (Js.is_colon c || Js.is_dot c) eqn:Hc; [reflexivity | rewrite Hc; reflexivity].
Qed.

Lemma all_not_slash_dot_app_dot (a b : string) :
  Js.all_not_slash_dot (a +:+ "." +:+ b) = false.
Proof.
  induction a as [|c a IH].
  - reflexivity.
  - rewrite app_cons. simpl. rewrite IH. apply andb_false_r.
Qed.

Lemma all_not_slash_dot_app_slash (a b : string) :
  Js.all_not_slash_dot (a +:+ "/" +:+ b) = false.
Proof.
  induction a as [|c a IH].
  - reflexivity.
  - rewrite app_cons. simpl. rewrite IH. apply andb_false_r.
Qed.

Lemma strip_ext_cons (c : ascii) (s : string) :
  Js.strip_ext (String c s)
  = if Js.ext_matches_here (String c s) then "" else String c (Js.strip_ext s).
Proof. reflexivity. Qed.

Lemma strip_ext_no_dot (s : string) : no_dot s = true -> Js.strip_ext s = s.
Proof.
  induction s as [|c s IH]; [reflexivity|]. unfold no_dot. cbn [string_forall].
  intros [Hc Hs]%andb_true_iff. apply negb_true_iff in Hc.
  rewrite strip_ext_cons, (IH Hs). unfold Js.ext_matches_here.
  destruct s; rewrite ?Hc; reflexivity.
Qed.

Lemma strip_ext_cons_blocked (c : ascii) (s : string) :
  Js.all_not_slash_dot s = false ->
  Js.strip_ext (String c s) = String c (Js.strip_ext s).
Proof.
  intros Hs. rewrite strip_ext_cons. unfold Js.ext_matches_here.
  destruct s as [|d s]; [reflexivity|]. rewrite Hs, andb_false_r. reflexivity.
Qed.

(** X3. The story file drops the extension of [fileName]: a last dot
    followed by one or more characters other than a slash. *)
Theorem storyFileName_strips_extension :
  forall (base ext : string),
    ext <> "" -> Js.all_not_slash_dot ext = true ->
    storyFileName (base +:+ "." +:+ ext) = base +:+ "_story.txt".
Proof.
  intros base ext Hne Hext. unfold storyFileName. f_equal.
  induction base as [|c base IH].
  - destruct ext as [|d ext]; [contradiction|].
    change ("" +:+ "." +:+ String d ext) with (String "." (String d ext)).
    rewrite strip_ext_cons. unfold Js.ext_matches_here. rewrite Hext. reflexivity.
  - rewrite app_cons, strip_ext_cons_blocked, IH; [reflexivity|].
    apply all_not_slash_dot_app_dot.
Qed.

Lemma storyFileName_strips_extension_witness :
  storyFileName "my.dragon.png" = "my.dragon_story.txt"
  /\ storyFileName ".hidden" = "_story.txt".
Proof.
  split.
  - exact (storyFileName_strips_extension "my.dragon" "png" ltac:(discriminate) eq_refl).
  - exact (storyFileName_strips_extension "" "hidden" ltac:(discriminate) eq_refl).
Defined.

(** X4. A dot is no extension when a slash follows it: a [fileName]
    whose last segment holds no dot is kept whole in the story name. *)
Theorem storyFileName_keeps_dotted_directory :
  forall (dir name : string),
    no_dot name = true ->
    storyFileName (dir +:+ "/" +:+ name) = dir +:+ "/" +:+ name +:+ "_story.txt".
Proof.
  intros dir name Hname. unfold storyFileName.
  assert (Hkeep : Js.strip_ext (dir +:+ "/" +:+ name) = dir +:+ "/" +:+ name).
  { induction dir as [|c dir IH].
    - change ("" +:+ "/" +:+ name) with (String "/" name).
      rewrite strip_ext_cons.
      replace (Js.ext_matches_here (String "/" name)) with false
        by (destruct name; reflexivity).
      rewrite (strip_ext_no_dot name Hname). reflexivity.
    - rewrite app_cons, strip_ext_cons_blocked, IH; [reflexivity|].
      apply all_not_slash_dot_app_slash. }
  rewrite Hkeep, !app_assoc_str. reflexivity.
Qed.

Lemma storyFileName_keeps_dotted_directory_witness :
  storyFileName "tales.v2/dragon" = "tales.v2/dragon_story.txt".
Proof. exact (storyFileName_keeps_dotted_directory "tales.v2" "dragon" eq_refl). Defined.

Lemma prefix_png_no_dot (c : ascii) (s : string) :
  Js.is_dot c = false -> String.prefix ".png" (String c s) = false.
Proof.
  intros Hc. cbn [String.prefix].
  destruct (ascii_dec "."%char c) as [<-|_]; [vm_compute in Hc; discriminate Hc|].
  reflexivity.
Qed.

Lemma replace_first_cons (pat rep : string) (c : ascii) (s : string) :
  Js.replace_first pat rep (String c s)
  = if String.prefix pat (String c s)
    then rep +:+ Js.drop (String.length pat) (String c s)
    else String c (Js.replace_first pat rep s).
Proof. reflexivity. Qed.

(** X5. The preview name removes the first [.png] of the image name, not
    its extension: when the text before that first occurrence holds no
    dot, what follows the occurrence is kept. *)
Theorem htmlFileName_removes_first_png :
  forall (before after : string),
    no_dot before = true ->
    htmlFileName (before +:+ ".png" +:+ after) = before +:+ after +:+ "_preview.html".
Proof.
  intros before after Hb. unfold htmlFileName.
  assert (Hfirst : Js.replace_first ".png" "" (before +:+ ".png" +:+ after)
                   = before +:+ after).
  { induction before as [|c before IH]; [destruct after; reflexivity|].
    unfold no_dot in Hb. cbn [string_forall] in Hb.
    apply andb_true_iff in Hb as [Hc Hb]. apply negb_true_iff in Hc.
    rewrite !app_cons, replace_first_cons, (prefix_png_no_dot c _ Hc).
    f_equal. exact (IH Hb). }
  rewrite Hfirst, app_assoc_str. reflexivity.
Qed.

Lemma htmlFileName_removes_first_png_witness :
  htmlFileName "dragon1_2026-11-02T10-20-30-123Z.png"
  = "dragon1_2026-11-02T10-20-30-123Z_preview.html"
  /\ htmlFileName "my.png.backup_2026-11-02T10-20-30-123Z.png"
     = "my.backup_2026-11-02T10-20-30-123Z.png_preview.html".
Proof.
  split.
  - exact (htmlFileName_removes_first_png "dragon1_2026-11-02T10-20-30-123Z" "" eq_refl).
  - exact (htmlFileName_removes_first_png "my" ".backup_2026-11-02T10-20-30-123Z.png"
             eq_refl).
Defined.

(* ===================================================================== *)
(** * Further properties: what a call leaves behind *)
(* ===================================================================== *)

Section KeepsFiles.

Context `{PathModule} (h : Host).

Lemma keeps_files_pure {A} (m : M A) :
  (forall w, exists r, m w = (r, w)) -> keeps_files m.
Proof.
  intros Hm w r w' Hr. destruct (Hm w) as [r0 Hr0]. rewrite Hr0 in Hr.
  injection Hr as <- <-. exists []. rewrite app_nil_r. auto.
Qed.

Lemma keeps_files_ret {A} (a : A) : keeps_files (ret a).
Proof. apply keeps_files_pure. intros w. eexists. reflexivity. Qed.

Lemma keeps_files_throw {A} (e : exn) : keeps_files (@throw A e).
Proof. apply keeps_files_pure. intros w. eexists. reflexivity. Qed.

Lemma keeps_files_lift {A} (r : Res A) : keeps_files (lift r).
Proof. destruct r; [apply keeps_files_ret | apply keeps_files_throw]. Qed.

Lemma keeps_files_existsSync (p : string) : keeps_files (fs_existsSync p).
Proof. apply keeps_files_pure. intros w. eexists. reflexivity. Qed.

Lemma keeps_files_seq {A B} (m : M A) (k : Res A -> M B) :
  keeps_files m -> (forall r, keeps_files (k r)) ->
  keeps_files (fun w => let '(r, w1) := m w in k r w1).
Proof.
  intros Hm Hk w r w'. destruct (m w) as [r1 w1] eqn:Hmw. intros Hr.
  destruct (Hm _ _ _ Hmw) as (ops1 & Hl1 & Hd1 & Hs1 & Hf1).
  destruct (Hk r1 _ _ _ Hr) as (ops2 & Hl2 & Hd2 & Hs2 & Hf2).
  exists (ops1 ++ ops2). rewrite Hl2, Hl1, app_assoc.
  split; [reflexivity|]. split; [set_solver|]. split; [auto|].
  intros q Hq. rewrite write_targets_app in Hq.
  rewrite Hf2, Hf1; [reflexivity| |]; intros Hin; apply Hq; set_solver.
Qed.

Lemma keeps_files_bind {A B} (m : M A) (k : A -> M B) :
  keeps_files m -> (forall a, keeps_files (k a)) -> keeps_files (bind m k).
Proof.
  intros Hm Hk w r w' Hr.
  refine (keeps_files_seq m (fun r => match r with Ok a => k a | Err e => throw e end)
            Hm _ w r w' _).
  - intros [a|e]; [apply Hk | apply keeps_files_throw].
  - unfold bind in Hr. destruct (m w) as [[a|e] w1]; exact Hr.
Qed.

Lemma keeps_files_try_catch {A} (m : M A) (k : exn -> M A) :
  keeps_files m -> (forall e, keeps_files (k e)) -> keeps_files (try_catch m k).
Proof.
  intros Hm Hk w r w' Hr.
  refine (keeps_files_seq m (fun r => match r with Ok a => ret a | Err e => k e end)
            Hm _ w r w' _).
  - intros [a|e]; [apply keeps_files_ret | apply Hk].
  - unfold try_catch in Hr. destruct (m w) as [[a|e] w1]; exact Hr.
Qed.

Lemma keeps_files_mkdirSync (p : string) : keeps_files (fs_mkdirSync h p).
Proof.
  intros w r w'. unfold fs_mkdirSync.
  destruct (throws h (log w) (OpMkdir p)); intros [= <- <-];
    exists [OpMkdir p]; simpl; (split; [reflexivity|]);
    (split; [set_solver|]); auto.
Qed.

Lemma keeps_files_writeFileSync (p : string) (payload : Payload) :
  keeps_files (fs_writeFileSync h p payload).
Proof.
  intros w r w'. unfold fs_writeFileSync.
  destruct (throws h (log w) (OpWrite p payload)); intros [= <- <-];
    exists [OpWrite p payload]; simpl; (split; [reflexivity|]);
    (split; [set_solver|]); auto.
  split.
  - intros q Hq. destruct (decide (p = q)) as [->|Hne].
    + rewrite lookup_insert_eq. eauto.
    + rewrite lookup_insert_ne by exact Hne. exact Hq.
  - intros q Hq. apply lookup_insert_ne. set_solver.
Qed.

Lemma keeps_files_execFileAsync (command : string) (args : list string) :
  keeps_files (execFileAsync h command args).
Proof.
  intros w r w'. unfold execFileAsync.
  destruct (throws h (log w) (OpExec command args)); intros [= <- <-];
    exists [OpExec command args]; simpl; (split; [reflexivity|]);
    (split; [set_solver|]); auto.
Qed.

Lemma keeps_files_generate (model prompt : string) :
  keeps_files (models_generateContentStream h model prompt).
Proof.
  intros w r w' [= <- <-]. exists [OpGenerate model prompt]. simpl.
  split; [reflexivity|]. split; [set_solver|]. auto.
Qed.

Ltac keeps_step :=
  lazy zeta;
  first
    [ apply keeps_files_ret
    | apply keeps_files_throw
    | apply keeps_files_lift
    | apply keeps_files_existsSync
    | apply keeps_files_mkdirSync
    | apply keeps_files_writeFileSync
    | apply keeps_files_execFileAsync
    | apply keeps_files_generate
    | assumption
    | apply keeps_files_bind; [|intros ?]
    | apply keeps_files_try_catch; [|intros ?]
    | match goal with
      | |- keeps_files (if ?b then _ else _) => destruct b
      | |- keeps_files (match ?x with _ => _ end) => destruct x
      | |- keeps_files (let '(_, _) := ?x in _) => destruct x
      end ].

Lemma keeps_files_getDesktopPath : keeps_files (getDesktopPath h).
Proof. unfold getDesktopPath. repeat keeps_step. Qed.

Lemma keeps_files_ensureDirectoryExists (d : string) :
  keeps_files (ensureDirectoryExists h d).
Proof. unfold ensureDirectoryExists. repeat keeps_step. Qed.

Lemma keeps_files_saveImageWithProperPath (buffer : list Byte.byte) (fileName : string) :
  keeps_files (saveImageWithProperPath h buffer fileName).
Proof.
  pose proof keeps_files_getDesktopPath. pose proof keeps_files_ensureDirectoryExists.
  unfold saveImageWithProperPath. repeat keeps_step.
Qed.

Lemma keeps_files_saveStoryWithProperPath (story fileName : string) :
  keeps_files (saveStoryWithProperPath h story fileName).
Proof.
  pose proof keeps_files_getDesktopPath. pose proof keeps_files_ensureDirectoryExists.
  unfold saveStoryWithProperPath. repeat keeps_step.
Qed.

Lemma keeps_files_openInBrowser (filePath : string) :
  keeps_files (openInBrowser h filePath).
Proof. unfold openInBrowser. repeat keeps_step. Qed.

Lemma keeps_files_generateStory (prompt : option string) :
  keeps_files (generateStory h prompt).
Proof. unfold generateStory. repeat keeps_step. Qed.

Lemma keeps_files_on_inlineData prompt fileName story storyPath payload :
  keeps_files (on_inlineData h prompt fileName story storyPath payload).
Proof.
  pose proof keeps_files_saveImageWithProperPath.
  pose proof keeps_files_ensureDirectoryExists.
  pose proof keeps_files_openInBrowser.
  unfold on_inlineData. repeat keeps_step.
Qed.

Lemma keeps_files_image_loop prompt fileName story storyPath response :
  keeps_files (image_loop h prompt fileName story storyPath response).
Proof.
  pose proof keeps_files_on_inlineData.
  induction response as [|c rest IH|e]; simpl; repeat keeps_step.
Qed.

Lemma keeps_files_handler (request : Request) : keeps_files (handler h request).
Proof.
  pose proof keeps_files_generateStory. pose proof keeps_files_saveStoryWithProperPath.
  pose proof keeps_files_image_loop.
  unfold handler, destructure. repeat keeps_step.
  apply keeps_files_image_loop.
Qed.

End KeepsFiles.

(** X6. Whatever the request and whatever fails, a call of the handler
    only adds to the log, removes no directory and no file, and leaves
    every file untouched except at the paths it attempted to write. *)
Theorem handler_keeps_other_files :
  forall `{PathModule} (h : Host) (request : Request) (w : World),
    exists ops,
      log (snd (handler h request w)) = log w ++ ops
      /\ dirs w ⊆ dirs (snd (handler h request w))
      /\ (forall q, is_Some (files w !! q) ->
          is_Some (files (snd (handler h request w)) !! q))
      /\ (forall q, q ∉ write_targets ops ->
          files (snd (handler h request w)) !! q = files w !! q).
Proof.
  intros P h request w.
  destruct (handler h request w) as [r w'] eqn:Hh.
  exact (keeps_files_handler h request w r w' Hh).
Qed.

(* ===================================================================== *)
(** * Further properties: how many calls a request makes *)
(* ===================================================================== *)

Lemma tally_app (a b : list Op) : tally (a ++ b) = tally_add (tally a) (tally b).
Proof.
  induction a as [|op a IH]; simpl.
  - destruct (tally b); reflexivity.
  - rewrite IH. unfold tally_add; simpl. f_equal; lia.
Qed.

Lemma tally_zero_le (b : Tally) : tally_le tally_zero b.
Proof. unfold tally_le; simpl; lia. Qed.

Ltac tally_solve :=
  unfold tally_le, tally_add in *; simpl in *; lia.

Section Within.

Context `{PathModule} (h : Host).

Lemma within_weaken {A} (b1 b : Tally) (m : M A) :
  within b1 m -> tally_le b1 b -> within b m.
Proof.
  intros Hm Hle w r w' Hr. destruct (Hm _ _ _ Hr) as (ops & Hl & Ht).
  exists ops. split; [exact Hl | tally_solve].
Qed.

Lemma within_pure {A} (b : Tally) (m : M A) :
  (forall w, exists r, m w = (r, w)) -> within b m.
Proof.
  intros Hm w r w' Hr. destruct (Hm w) as [r0 Hr0]. rewrite Hr0 in Hr.
  injection Hr as <- <-. exists []. rewrite app_nil_r.
  split; [reflexivity | apply tally_zero_le].
Qed.

Lemma within_ret {A} (b : Tally) (a : A) : within b (ret a).
Proof. apply within_pure. intros w. eexists. reflexivity. Qed.

Lemma within_throw {A} (b : Tally) (e : exn) : within b (@throw A e).
Proof. apply within_pure. intros w. eexists. reflexivity. Qed.

Lemma within_seq {A B} (b1 b2 b : Tally) (m : M A) (k : Res A -> M B) :
  within b1 m -> (forall r, within b2 (k r)) -> tally_le (tally_add b1 b2) b ->
  within b (fun w => let '(r, w1) := m w in k r w1).
Proof.
  intros Hm Hk Hle w r w'. destruct (m w) as [r1 w1] eqn:Hmw. intros Hr.
  destruct (Hm _ _ _ Hmw) as (ops1 & Hl1 & Ht1).
  destruct (Hk r1 _ _ _ Hr) as (ops2 & Hl2 & Ht2).
  exists (ops1 ++ ops2). rewrite Hl2, Hl1, app_assoc, tally_app.
  split; [reflexivity | tally_solve].
Qed.

Lemma within_bind {A B} (b1 b2 b : Tally) (m : M A) (k : A -> M B) :
  within b1 m -> (forall a, within b2 (k a)) -> tally_le (tally_add b1 b2) b ->
  within b (bind m k).
Proof.
  intros Hm Hk Hle w r w' Hr.
  refine (within_seq b1 b2 b m (fun r => match r with Ok a => k a | Err e => throw e end)
            Hm _ Hle w r w' _).
  - intros [a|e]; [apply Hk | apply within_throw].
  - unfold bind in Hr. destruct (m w) as [[a|e] w1]; exact Hr.
Qed.

Lemma within_try_catch {A} (b1 b2 b : Tally) (m : M A) (k : exn -> M A) :
  within b1 m -> (forall e, within b2 (k e)) -> tally_le (tally_add b1 b2) b ->
  within b (try_catch m k).
Proof.
  intros Hm Hk Hle w r w' Hr.
  refine (within_seq b1 b2 b m (fun r => match r with Ok a => ret a | Err e => k e end)
            Hm _ Hle w r w' _).
  - intros [a|e]; [apply within_ret | apply Hk].
  - unfold try_catch in Hr. destruct (m w) as [[a|e] w1]; exact Hr.
Qed.

Lemma within_mkdirSync (p : string) : within (Build_Tally 0 1 0 0) (fs_mkdirSync h p).
Proof.
  intros w r w'. unfold fs_mkdirSync.
  destruct (throws h (log w) (OpMkdir p)); intros [= <- <-];
    exists [OpMkdir p]; (split; [reflexivity | tally_solve]).
Qed.

Lemma within_writeFileSync (p : string) (payload : Payload) :
  within (Build_Tally 0 0 1 0) (fs_writeFileSync h p payload).
Proof.
  intros w r w'. unfold fs_writeFileSync.
  destruct (throws h (log w) (OpWrite p payload)); intros [= <- <-];
    exists [OpWrite p payload]; (split; [reflexivity | tally_solve]).
Qed.

Lemma within_execFileAsync (command : string) (args : list string) :
  within (Build_Tally 0 0 0 1) (execFileAsync h command args).
Proof.
  intros w r w'. unfold execFileAsync.
  destruct (throws h (log w) (OpExec command args)); intros [= <- <-];
    exists [OpExec command args]; (split; [reflexivity | tally_solve]).
Qed.

Lemma within_generate (model prompt : string) :
  within (Build_Tally 1 0 0 0) (models_generateContentStream h model prompt).
Proof.
  intros w r w' [= <- <-]. exists [OpGenerate model prompt].
  split; [reflexivity | tally_solve].
Qed.

Lemma within_getDesktopPath (b : Tally) : within b (getDesktopPath h).
Proof.
  apply within_pure. intros w. destruct (getDesktopPath_pure h w) as [p Hp]. eauto.
Qed.

Lemma within_ensureDirectoryExists (d : string) :
  within (Build_Tally 0 1 0 0) (ensureDirectoryExists h d).
Proof.
  unfold ensureDirectoryExists.
  apply (within_bind tally_zero (Build_Tally 0 1 0 0)); [| |tally_solve].
  - apply within_pure. intros w. eexists. reflexivity.
  - intros [|]; [apply within_ret|].
    apply (within_try_catch (Build_Tally 0 1 0 0) tally_zero); [| |tally_solve].
    + apply within_mkdirSync.
    + intros e. apply within_throw.
Qed.

(** A directory check, a write and a return: one [mkdirSync] and one
    [writeFileSync] at most. *)
Lemma within_dir_then_write (d p : string) (payload : Payload) :
  within (Build_Tally 0 1 1 0)
    (bind (ensureDirectoryExists h d)
       (fun _ => bind (fs_writeFileSync h p payload) (fun _ => ret p))).
Proof.
  apply (within_bind (Build_Tally 0 1 0 0) (Build_Tally 0 0 1 0)); [| |tally_solve].
  - apply within_ensureDirectoryExists.
  - intros _. apply (within_bind (Build_Tally 0 0 1 0) tally_zero); [| |tally_solve].
    + apply within_writeFileSync.
    + intros _. apply within_ret.
Qed.

Lemma within_first_attempt (payload : Payload) (fileName : string) :
  within (Build_Tally 0 1 1 0) (first_attempt h payload fileName).
Proof.
  unfold first_attempt. destruct (save_to_desktop h).
  - apply (within_bind tally_zero (Build_Tally 0 1 1 0)); [| |tally_solve].
    + apply within_getDesktopPath.
    + intros desktop. apply within_dir_then_write.
  - apply within_dir_then_write.
Qed.

Lemma within_save (payload : Payload) (fileName : string) :
  within (Build_Tally 0 2 2 0) (save h payload fileName).
Proof.
  rewrite save_is_try_catch.
  apply (within_try_catch (Build_Tally 0 1 1 0) (Build_Tally 0 1 1 0)); [| |tally_solve].
  - apply within_first_attempt.
  - intros e. apply within_dir_then_write.
Qed.

Lemma within_openInBrowser (filePath : string) :
  within (Build_Tally 0 0 0 1) (openInBrowser h filePath).
Proof.
  unfold openInBrowser.
  apply (within_try_catch (Build_Tally 0 0 0 1) tally_zero); [| |tally_solve].
  - destruct (_ && _ && _); [apply within_ret | apply within_execFileAsync].
  - intros e. apply within_ret.
Qed.

Lemma within_generateStory (prompt : option string) :
  within (Build_Tally 1 0 0 0) (generateStory h prompt).
Proof.
  intros w r w' Hr. destruct (generateStory_returns h prompt w) as [story Hs].
  rewrite Hs in Hr. injection Hr as <- <-.
  exists [OpGenerate storyModel (storyPrompt prompt)]. split; [reflexivity | tally_solve].
Qed.

Lemma within_on_inlineData prompt fileName story sp found :
  within (Build_Tally 0 3 3 1) (on_inlineData h prompt fileName story sp found).
Proof.
  unfold on_inlineData. lazy zeta.
  apply (within_bind (Build_Tally 0 2 2 0) (Build_Tally 0 1 1 1)); [| |tally_solve].
  - apply (within_save (Buffer _)).
  - intros savedPath.
    apply (within_bind (Build_Tally 0 1 0 0) (Build_Tally 0 0 1 1)); [| |tally_solve].
    + apply within_ensureDirectoryExists.
    + intros _. apply (within_bind (Build_Tally 0 0 1 0) (Build_Tally 0 0 0 1)); [| |tally_solve].
      * apply within_writeFileSync.
      * intros _. apply (within_bind (Build_Tally 0 0 0 1) tally_zero); [| |tally_solve].
        -- apply (within_try_catch (Build_Tally 0 0 0 1) tally_zero); [| |tally_solve].
           ++ apply within_openInBrowser.
           ++ intros e. apply within_ret.
        -- intros _. apply within_ret.
Qed.

Lemma within_image_loop prompt fileName story sp response :
  within (Build_Tally 0 3 3 1) (image_loop h prompt fileName story sp response).
Proof.
  induction response as [|c rest IH|e]; simpl; try apply within_throw.
  destruct (guarded_parts c) as [[[|part ps]|]|e]; try apply within_throw; try exact IH.
  destruct (inlineData part); [apply within_on_inlineData | exact IH].
Qed.

Lemma within_handler (request : Request) : within (Build_Tally 2 5 5 1) (handler h request).
Proof.
  unfold handler.
  apply (within_try_catch (Build_Tally 2 5 5 1) tally_zero); [| |tally_solve];
    [|intros e; destruct (instanceof_McpError e); apply within_throw].
  destruct (req_name request =? "generate_storybook_image")%string;
    [|apply within_throw].
  apply (within_bind tally_zero (Build_Tally 2 5 5 1)); [| |tally_solve].
  { unfold destructure. destruct (req_arguments request);
      [apply within_ret | apply within_throw]. }
  intros [[prompt fileName] artStyle].
  apply (within_bind (Build_Tally 1 0 0 0) (Build_Tally 1 5 5 1)); [| |tally_solve].
  { apply within_generateStory. }
  intros story.
  apply (within_bind tally_zero (Build_Tally 1 5 5 1)); [| |tally_solve].
  { destruct fileName; [apply within_ret | apply within_throw]. }
  intros f.
  apply (within_bind (Build_Tally 0 2 2 0) (Build_Tally 1 3 3 1)); [| |tally_solve].
  { apply (within_save (Utf8 story)). }
  intros sp.
  apply (within_try_catch (Build_Tally 1 3 3 1) tally_zero); [| |tally_solve];
    [|intros e; destruct (instanceof_Error e); apply within_throw].
  apply (within_bind (Build_Tally 1 0 0 0) (Build_Tally 0 3 3 1)); [| |tally_solve].
  { apply within_generate. }
  intros response. apply within_image_loop.
Qed.

End Within.

(** X7. One call of the handler makes at most two calls to the provider
    (one per model, never a retry), five [mkdirSync] and five
    [writeFileSync] calls (each of the two writers tries twice, the
    preview once) and launches at most one viewer. *)
Theorem handler_call_budget :
  forall `{PathModule} (h : Host) (request : Request) (w : World),
    exists ops,
      log (snd (handler h request w)) = log w ++ ops
      /\ n_generate (tally ops) <= 2
      /\ n_mkdir (tally ops) <= 5
      /\ n_write (tally ops) <= 5
      /\ n_exec (tally ops) <= 1.
Proof.
  intros P h request w.
  destruct (handler h request w) as [r w'] eqn:Hh.
  destruct (within_handler h request w r w' Hh) as (ops & Hl & Ht).
  exists ops. split; [exact Hl | exact Ht].
Qed.

(** The budget of X7 is reached: when the first attempt of both writers
    fails, five writes are attempted. *)
Example five_writes_are_reached :
  let h := Examples.linux_host SEnd (SChunk (Examples.image_chunk None) SEnd)
             "2026-11-02T10:20:30.123Z" Examples.primary_write_throws in
  tally (log (snd (handler (H := SimplePosix.path) h Examples.dragon Examples.empty_world)))
  = {| n_generate := 2; n_mkdir := 2; n_write := 5; n_exec := 0 |}.
Proof. vm_compute. reflexivity. Qed.

(* ===================================================================== *)
(** * Further properties: start of the process *)
(* ===================================================================== *)


(* ===================================================================== *)
(** * Further properties: the handler *)
(* ===================================================================== *)

Lemma handler_other_tool `{PathModule} (h : Host) (request : Request) (w : World) :
  req_name request <> "generate_storybook_image" ->
  handler h request w
  = (Err (McpError InternalError ("Unknown tool: " +:+ req_name request)), w).
Proof.
  intros Hname. unfold handler, try_catch.
  apply String.eqb_neq in Hname. rewrite Hname. reflexivity.
Qed.

(** X9. A call that names another tool fails with "Unknown tool" and
    makes no call at all: the world is as before. *)
Theorem unknown_tool_is_rejected :
  forall `{PathModule} (h : Host) (request : Request) (w : World),
    req_name request <> "generate_storybook_image" ->
    handler h request w
    = (Err (McpError InternalError ("Unknown tool: " +:+ req_name request)), w).
Proof.
  intros P h request w Hname. exact (handler_other_tool h request w Hname).
Qed.

Lemma unknown_tool_is_rejected_witness :
  handler (H := SimplePosix.path) (Examples.desktop_host "linux" ∅)
    {| req_name := "generate_image"; req_arguments := None |} Examples.empty_world
  = (Err (McpError InternalError "Unknown tool: generate_image"), Examples.empty_world).
Proof.
  exact (unknown_tool_is_rejected (H := SimplePosix.path) (Examples.desktop_host "linux" ∅)
           {| req_name := "generate_image"; req_arguments := None |} Examples.empty_world
           ltac:(discriminate)).
Defined.



Section Inversion.

Context `{PathModule} (h : Host).

(** The preview opener, wrapped as in the handler: it returns normally
    and changes neither files nor directories. *)
Lemma openInBrowser_keeps_world (p : string) (w w' : World) (r : Res unit) :
  try_catch (openInBrowser h p) (fun _ => ret tt) w = (r, w') ->
  r = Ok tt /\ files w' = files w /\ dirs w' = dirs w.
Proof.
  unfold openInBrowser, try_catch, execFileAsync, ret, logged.
  destruct (_ && _ && _).
  - intros [= <- <-]. auto.
  - lazy zeta.
    match goal with
    | |- context [throws h (log w) ?op] => destruct (throws h (log w) op)
    end; intros [= <- <-]; auto.
Qed.

Lemma ensureDirectoryExists_keeps_files (d : string) (w w' : World) (r : Res unit) :
  ensureDirectoryExists h d w = (r, w') -> files w' = files w.
Proof.
  unfold ensureDirectoryExists, bind, try_catch, fs_existsSync, fs_mkdirSync, ret, throw.
  destruct (existsSync w d); [intros [= <- <-]; reflexivity|].
  destruct (throws h (log w) (OpMkdir d)); intros [= <- <-]; reflexivity.
Qed.

(** A body that returns: the fields of its result, and the preview
    document in its file. *)
Lemma on_inlineData_returns (prompt : option string) (fileName story sp : string)
    (found : InlineData) (w w' : World) (res : ToolResult) :
  on_inlineData h prompt fileName story sp found w = (Ok res, w') ->
  success res = true
  /\ storyPath res = sp
  /\ htmlPath res
     = path_join [path_dirname (imagePath res);
                  htmlFileName (outputFileName fileName (Date_toISOString h))]
  /\ content_text res = success_text (imagePath res) sp (htmlPath res)
  /\ files w' !! htmlPath res
     = Some (Utf8 (htmlContent prompt (imagePath res) story sp)).
Proof.
  unfold on_inlineData. lazy zeta. unfold bind at 1.
  destruct (saveImageWithProperPath h _ _ w) as [[p|e] w1]; [|discriminate].
  unfold bind at 1.
  destruct (ensureDirectoryExists h _ w1) as [[[]|e] w2]; [|discriminate].
  unfold bind at 1. unfold fs_writeFileSync at 1.
  destruct (throws h (log w2) _) as [e|]; [discriminate|].
  unfold bind at 1.
  match goal with
  | |- context [try_catch ?m ?k ?w3] =>
      destruct (try_catch m k w3) as [r4 w4] eqn:Ho;
      destruct (openInBrowser_keeps_world _ _ _ _ Ho) as (-> & Hf & _)
  end.
  unfold ret. intros [= <- <-]. simpl.
  repeat (split; [reflexivity|]).
  rewrite Hf. simpl. apply lookup_insert_eq.
Qed.

Lemma image_loop_returns (prompt : option string) (fileName story sp : string)
    (response : Stream) (w w' : World) (res : ToolResult) :
  image_loop h prompt fileName story sp response w = (Ok res, w') ->
  exists found, on_inlineData h prompt fileName story sp found w = (Ok res, w').
Proof.
  induction response as [|c rest IH|e]; simpl; try discriminate.
  destruct (guarded_parts c) as [[[|part ps]|]|e]; try discriminate; try exact IH.
  destruct (inlineData part) as [found|]; [eauto | exact IH].
Qed.

End Inversion.

Lemma handler_returns_inv :
  forall `{PathModule} (h : Host) (request : Request) (w w' : World) (res : ToolResult),
    handler h request w = (Ok res, w') ->
    exists a f story w0,
      request = tool_call a
      /\ arg_fileName a = Some f
      /\ generateStory h (arg_prompt a) w = (Ok story, w0)
      /\ success res = true
      /\ In (OpWrite (storyPath res) (Utf8 story)) (log w')
      /\ htmlPath res
         = path_join [path_dirname (imagePath res);
                      htmlFileName (outputFileName f (Date_toISOString h))]
      /\ content_text res = success_text (imagePath res) (storyPath res) (htmlPath res)
      /\ files w' !! htmlPath res
         = Some (Utf8 (htmlContent (arg_prompt a) (imagePath res) story (storyPath res))).
Proof.
  intros P h [name args] w w' res Hh.
  destruct (String.eqb_spec name "generate_storybook_image") as [->|Hne].
  2:{ rewrite (handler_other_tool h {| req_name := name; req_arguments := args |}
                 w Hne) in Hh. discriminate. }
  destruct args as [a|]; [|discriminate].
  change {| req_name := "generate_storybook_image"; req_arguments := Some a |}
    with (tool_call a) in *.
  destruct (generateStory_returns h (arg_prompt a) w) as [story Hstory].
  rewrite (handler_cases h a w _ story Hstory) in Hh.
  destruct (arg_fileName a) as [f|] eqn:Hf; [|discriminate].
  destruct (saveStoryWithProperPath h story (storyFileName f) _) as [[sp|e] w1] eqn:Hsave;
    [|discriminate].
  lazy zeta in Hh.
  destruct (image_loop h (arg_prompt a) f story sp _ _) as [[res'|e] w2] eqn:Hloop;
    [|discriminate].
  injection Hh as -> ->.
  destruct (image_loop_returns h _ _ _ _ _ _ _ _ Hloop) as [found Hin].
  destruct (on_inlineData_returns h _ _ _ _ _ _ _ _ Hin) as (Hs & Hsp & Hhp & Hct & Hfile).
  destruct (save_returns h (Utf8 story) (storyFileName f) _ _ _ Hsave) as (_ & pre & Hlog1).
  destruct (local_image_loop h _ _ _ _ _ _ _ _ Hloop) as (ops2 & Hlog2 & _).
  exists a, f, story, (logged (OpGenerate storyModel (storyPrompt (arg_prompt a))) w).
  rewrite Hsp.
  split; [reflexivity|]. split; [exact Hf|]. split; [exact Hstory|].
  split; [exact Hs|].
  split.
  { rewrite Hlog2. simpl. rewrite Hlog1. rewrite !in_app_iff. left. left. right. right.
    left. reflexivity. }
  split; [exact Hhp|]. split; [exact Hct | exact Hfile].
Qed.

(** X11. A success result is consistent with what was done: the
    arguments held a [fileName], the story of [generateStory] was written
    at [storyPath], the preview lies beside the image under the name
    derived from the image name, the summary lists the three paths, and
    the preview file holds the document built from the prompt, the story
    and the two paths. *)
Theorem success_result_is_consistent :
  forall `{PathModule} (h : Host) (request : Request) (w w' : World) (res : ToolResult),
    handler h request w = (Ok res, w') ->
    exists a f story w0,
      request = tool_call a
      /\ arg_fileName a = Some f
      /\ generateStory h (arg_prompt a) w = (Ok story, w0)
      /\ success res = true
      /\ In (OpWrite (storyPath res) (Utf8 story)) (log w')
      /\ htmlPath res
         = path_join [path_dirname (imagePath res);
                      htmlFileName (outputFileName f (Date_toISOString h))]
      /\ content_text res = success_text (imagePath res) (storyPath res) (htmlPath res)
      /\ files w' !! htmlPath res
         = Some (Utf8 (htmlContent (arg_prompt a) (imagePath res) story (storyPath res))).
Proof.
  intros P h request w w' res Hh. exact (handler_returns_inv h request w w' res Hh).
Qed.

Lemma success_result_is_consistent_witness :
  let h := Examples.linux_host
             (SChunk (Examples.text_chunk ["Once upon a time, a dragon..."]) SEnd)
             (SChunk (Examples.image_chunk (Some "aGk=")) SEnd)
             "2026-11-02T10:20:30.123Z" Examples.never_throws in
  let out := handler (H := SimplePosix.path) h Examples.dragon Examples.empty_world in
  exists res story,
    fst out = Ok res
    /\ In (OpWrite (storyPath res) (Utf8 story)) (log (snd out))
    /\ files (snd out) !! htmlPath res
       = Some (Utf8 (htmlContent (Some "a dragon learns to share") (imagePath res) story
                       (storyPath res))).
Proof.
  intros h out. subst out.
  destruct (handler (H := SimplePosix.path) h Examples.dragon Examples.empty_world)
    as [[res|e] w'] eqn:Hh; [|vm_compute in Hh; discriminate Hh].
  destruct (success_result_is_consistent (H := SimplePosix.path) h Examples.dragon
              Examples.empty_world w' res Hh)
    as (a & f & story & w0 & Ha & _ & _ & _ & Hin & _ & _ & Hfile).
  injection Ha as <-.
  exists res, story. simpl. auto.
Defined.

(* ===================================================================== *)
(** * Further properties: directories, paths and the viewer *)
(* ===================================================================== *)

(** X12. Ensuring a directory is idempotent: after a call that returned,
    a second call for the same (non-empty) path makes no call to the file
    system and returns with the world unchanged. *)
Theorem ensureDirectoryExists_idempotent :
  forall (h : Host) (dirPath : string) (w w1 : World),
    dirPath <> "" ->
    ensureDirectoryExists h dirPath w = (Ok tt, w1) ->
    ensureDirectoryExists h dirPath w1 = (Ok tt, w1).
Proof.
  intros h d w w1 Hd.
  unfold ensureDirectoryExists, bind, try_catch, fs_existsSync, fs_mkdirSync, ret, throw.
  destruct (existsSync w d) eqn:Hex.
  - intros [= <-]. rewrite Hex. reflexivity.
  - destruct (throws h (log w) (OpMkdir d)); [discriminate|]. intros [= <-].
    unfold existsSync. simpl.
    apply String.eqb_neq in Hd. rewrite Hd. simpl.
    rewrite bool_decide_true by set_solver. reflexivity.
Qed.

Lemma ensureDirectoryExists_idempotent_witness :
  let h := Examples.desktop_host "linux" ∅ in
  let w1 := {| dirs := {[ "/srv/storybook-images" ]}; files := ∅;
               log := [OpMkdir "/srv/storybook-images"] |} in
  ensureDirectoryExists h "/srv/storybook-images" w1 = (Ok tt, w1).
Proof.
  intros h w1.
  exact (ensureDirectoryExists_idempotent h "/srv/storybook-images" Examples.empty_world w1
           ltac:(discriminate) eq_refl).
Defined.


(** X14. Opening the preview cannot fail a call: [openInBrowser] returns
    normally even when the command throws, leaves files and directories
    as they are, and launches at most one command, on the normalized
    path; none when there is no display on a platform other than Windows
    and macOS. *)
Theorem openInBrowser_is_best_effort :
  forall `{PathModule} (h : Host) (filePath : string) (w : World),
    exists ops,
      fst (openInBrowser h filePath w) = Ok tt
      /\ log (snd (openInBrowser h filePath w)) = log w ++ ops
      /\ files (snd (openInBrowser h filePath w)) = files w
      /\ dirs (snd (openInBrowser h filePath w)) = dirs w
      /\ (ops = []
          \/ exists command,
               ops = [OpExec command [path_normalize filePath]]
               /\ In command ["explorer"; "open"; "xdg-open"])
      /\ (process_env h !! "DISPLAY" = None ->
          os_platform h <> "win32" -> os_platform h <> "darwin" -> ops = []).
Proof.
  intros P h filePath w.
  unfold openInBrowser, try_catch, execFileAsync, ret, logged, platform_is.
  destruct (String.eqb_spec (os_platform h) "win32") as [Hw|Hw];
    destruct (String.eqb_spec (os_platform h) "darwin") as [Hd|Hd];
    destruct (process_env h !! "DISPLAY") as [disp|] eqn:Hdisp; simpl;
    try (exists []; rewrite app_nil_r; simpl; repeat split; auto; fail);
    lazy zeta;
    match goal with
    | |- context [throws h (log w) ?op] =>
        exists [op]; destruct (throws h (log w) op); simpl;
          (repeat split; auto; try congruence);
          right; eexists; (split; [reflexivity|]); simpl; auto
    end.
Qed.

(** X15. A writer that returns has put its payload at the path it
    returns, and when files are saved below the working directory that
    path is one of two: [storybook-images/fileName] or, after a failed
    first attempt, [output/fileName]. *)
Theorem save_returns_one_of_two_paths :
  forall `{PathModule} (h : Host) (payload : Payload) (fileName p : string)
         (w w' : World),
    save_to_desktop h = false ->
    save h payload fileName w = (Ok p, w') ->
    files w' !! p = Some payload
    /\ (p = path_normalize
              (path_join [path_join [process_cwd h; "storybook-images"]; fileName])
        \/ p = path_join [path_join [process_cwd h; "output"]; fileName]).
Proof.
  intros P h payload fileName p w w' Hlocal Hsave.
  split; [exact (proj1 (save_returns h payload fileName w w' p Hsave))|].
  rewrite save_is_try_catch in Hsave. unfold try_catch in Hsave.
  destruct (first_attempt h payload fileName w) as [[q|e] w1] eqn:H1.
  - injection Hsave as -> ->. left.
    unfold first_attempt in H1. rewrite Hlocal in H1. lazy zeta in H1.
    destruct (dir_then_write h _ _ _ _ _ _ H1) as (pre & _ & Hc).
    destruct Hc as [(e & He & _)|[(e & He & _)|(Hq & _)]]; try discriminate.
    injection Hq as ->. reflexivity.
  - right.
    destruct (retry_cases h _ _ _ _ _ Hsave) as (pre & _ & Hc).
    destruct Hc as [(e' & He & _)|[(e' & He & _)|(Hq & _)]]; try discriminate.
    injection Hq as ->. reflexivity.
Qed.

Lemma save_returns_one_of_two_paths_witness :
  let h := Examples.linux_host SEnd SEnd "2026-11-02T10:20:30.123Z"
             Examples.primary_write_throws in
  let out := save (H := SimplePosix.path) h (Utf8 "Once upon a time") "dragon1_story.txt"
               Examples.empty_world in
  files (snd out) !! "/srv/output/dragon1_story.txt" = Some (Utf8 "Once upon a time")
  /\ ("/srv/output/dragon1_story.txt" = "/srv/storybook-images/dragon1_story.txt"
      \/ "/srv/output/dragon1_story.txt" = "/srv/output/dragon1_story.txt").
Proof.
  intros h out.
  exact (save_returns_one_of_two_paths (H := SimplePosix.path) h (Utf8 "Once upon a time")
           "dragon1_story.txt" "/srv/output/dragon1_story.txt" Examples.empty_world
           (snd out) eq_refl eq_refl).
Defined.

(* ===================================================================== *)
(** * Further properties: reading the streams *)
(* ===================================================================== *)

Lemma collect_story_text_prepend_throw (cs : list Chunk) (e : exn) :
  forall acc,
    forallb readable cs = true ->
    collect_story_text (prepend cs (SThrow e)) acc = Err e.
Proof.
  induction cs as [|c cs IH]; intros acc Hread; simpl in *; [reflexivity|].
  apply andb_true_iff in Hread as [Hc Hcs]. unfold readable in Hc.
  destruct (guarded_parts c) as [[[|part ps]|]|e']; try discriminate.
  - destruct (text part); apply IH; exact Hcs.
  - apply IH; exact Hcs.
Qed.

(** X16. The story is all or nothing: when the story stream throws after
    any number of readable chunks, the text collected so far is dropped
    and [generateStory] returns the fallback that embeds the error
    message. *)
Theorem generateStory_drops_partial_text :
  forall (h : Host) (prompt : option string) (w : World) (cs : list Chunk) (e : exn),
    generateContentStream h storyModel (storyPrompt prompt) = prepend cs (SThrow e) ->
    forallb readable cs = true ->
    fst (generateStory h prompt w)
    = Ok ("Once upon a time... (Story generation failed: " +:+ message_or_String e +:+ ")").
Proof.
  intros h prompt w cs e Hstream Hread.
  unfold generateStory, try_catch, bind, models_generateContentStream, lift, ret, throw.
  rewrite Hstream, (collect_story_text_prepend_throw cs e "" Hread). reflexivity.
Qed.

Lemma generateStory_drops_partial_text_witness :
  let h := Examples.linux_host
             (SChunk (Examples.text_chunk ["Once upon a time, "])
                (SChunk (Examples.text_chunk ["a dragon"]) (SThrow (Error "quota exceeded"))))
             SEnd "2026-11-02T10:20:30.123Z" Examples.never_throws in
  fst (generateStory h (Some "a dragon") Examples.empty_world)
  = Ok "Once upon a time... (Story generation failed: quota exceeded)".
Proof.
  intros h.
  exact (generateStory_drops_partial_text h (Some "a dragon") Examples.empty_world
           [Examples.text_chunk ["Once upon a time, "]; Examples.text_chunk ["a dragon"]]
           (Error "quota exceeded") eq_refl eq_refl).
Defined.

Section Scanning.

Context `{PathModule} (h : Host).
Variables (prompt : option string) (fileName story sp : string).

(** Chunks whose part 0 carries no inline data are passed over. *)
Lemma image_loop_prepend (cs : list Chunk) (rest : Stream) (w : World) :
  forallb readable cs = true ->
  first_inlineData (prepend cs SEnd) = None ->
  image_loop h prompt fileName story sp (prepend cs rest) w
  = image_loop h prompt fileName story sp rest w.
Proof.
  induction cs as [|c cs IH]; simpl; [reflexivity|].
  intros [Hc Hcs]%andb_true_iff. unfold readable in Hc.
  destruct (guarded_parts c) as [[[|part ps]|]|e]; try discriminate.
  - destruct (inlineData part); [discriminate|]. intros Hnone. exact (IH Hcs Hnone).
  - intros Hnone. exact (IH Hcs Hnone).
Qed.

(** What follows a chunk whose part 0 carries inline data is not read. *)
Lemma image_loop_stops (c : Chunk) (rest1 rest2 : Stream) (w : World) :
  is_Some (first_inlineData (SChunk c SEnd)) ->
  image_loop h prompt fileName story sp (SChunk c rest1) w
  = image_loop h prompt fileName story sp (SChunk c rest2) w.
Proof.
  simpl. destruct (guarded_parts c) as [[[|part ps]|]|e]; try (intros [? [=]]; fail);
    try reflexivity.
  destruct (inlineData part); [reflexivity | intros [? [=]]].
Qed.

End Scanning.

(** X17. First found wins: once a chunk carries inline data in its part
    0, the rest of the image stream has no effect on the call, whether it
    holds further images or throws. *)
Theorem image_loop_first_found_wins :
  forall `{PathModule} (h : Host) (prompt : option string)
         (fileName story sp : string) (cs : list Chunk) (c : Chunk)
         (rest1 rest2 : Stream) (w : World),
    forallb readable cs = true ->
    first_inlineData (prepend cs SEnd) = None ->
    is_Some (first_inlineData (SChunk c SEnd)) ->
    image_loop h prompt fileName story sp (prepend cs (SChunk c rest1)) w
    = image_loop h prompt fileName story sp (prepend cs (SChunk c rest2)) w.
Proof.
  intros P h prompt fileName story sp cs c rest1 rest2 w Hread Hnone Hsome.
  rewrite !(image_loop_prepend h prompt fileName story sp cs _ w Hread Hnone).
  exact (image_loop_stops h prompt fileName story sp c rest1 rest2 w Hsome).
Qed.

Lemma image_loop_first_found_wins_witness :
  let h := Examples.linux_host SEnd SEnd "2026-11-02T10:20:30.123Z"
             Examples.never_throws in
  image_loop (H := SimplePosix.path) h (Some "a dragon") "dragon1" "A story."
    "/srv/storybook-images/dragon1_story.txt"
    (prepend [Examples.text_chunk ["here is your picture"]]
       (SChunk (Examples.image_chunk (Some "aGk="))
          (SChunk (Examples.image_chunk (Some "Ynll")) SEnd)))
    Examples.empty_world
  = image_loop (H := SimplePosix.path) h (Some "a dragon") "dragon1" "A story."
      "/srv/storybook-images/dragon1_story.txt"
      (prepend [Examples.text_chunk ["here is your picture"]]
         (SChunk (Examples.image_chunk (Some "aGk=")) (SThrow (Error "connection reset"))))
      Examples.empty_world.
Proof.
  intros h.
  exact (image_loop_first_found_wins (H := SimplePosix.path) h (Some "a dragon") "dragon1"
           "A story." "/srv/storybook-images/dragon1_story.txt"
           [Examples.text_chunk ["here is your picture"]]
           (Examples.image_chunk (Some "aGk="))
           (SChunk (Examples.image_chunk (Some "Ynll")) SEnd)
           (SThrow (Error "connection reset")) Examples.empty_world
           eq_refl eq_refl (ex_intro _ _ eq_refl)).
Defined.

(** X18. An image stream that throws before any inline data was found
    fails the call with "Failed to generate image" and the message of the
    error, or with "An unknown error occurred" when the thrown value is
    not an [Error]; the story written before stays in its file and
    nothing else is written. *)
Theorem image_stream_error_is_reported :
  forall `{PathModule} (h : Host) (a : Arguments) (f story storyPath : string)
         (w w0 w1 : World) (cs : list Chunk) (e : exn),
    arg_fileName a = Some f ->
    generateStory h (arg_prompt a) w = (Ok story, w0) ->
    saveStoryWithProperPath h story (storyFileName f) w0 = (Ok storyPath, w1) ->
    generateContentStream h imageModel (imagePrompt (style_of a) (arg_prompt a))
    = prepend cs (SThrow e) ->
    forallb readable cs = true ->
    first_inlineData (prepend cs SEnd) = None ->
    exists w2,
      handler h (tool_call a) w
      = (Err (McpError InternalError
                (if instanceof_Error e
                 then "Failed to generate image: " +:+ message e
                 else "An unknown error occurred")), w2)
      /\ files w2 = files w1
      /\ files w2 !! storyPath = Some (Utf8 story).
Proof.
  intros P h a f story storyPath w w0 w1 cs e Hf Hstory Hsave Hstream Hread Hnone.
  rewrite (handler_cases h a w w0 story Hstory), Hf, Hsave. lazy zeta.
  rewrite Hstream, (image_loop_prepend h _ _ _ _ cs _ _ Hread Hnone). simpl.
  unfold throw, image_boundary.
  eexists. split; [destruct (instanceof_Error e); reflexivity|].
  split; [reflexivity|]. simpl.
  apply (save_returns h (Utf8 story) (storyFileName f) w0 w1 storyPath Hsave).
Qed.

Lemma image_stream_error_is_reported_witness :
  let h := Examples.linux_host
             (SChunk (Examples.text_chunk ["Once upon a time, a dragon..."]) SEnd)
             (SChunk (Examples.text_chunk ["one moment"]) (SThrow (Error "quota exceeded")))
             "2026-11-02T10:20:30.123Z" Examples.never_throws in
  exists w2,
    handler (H := SimplePosix.path) h Examples.dragon Examples.empty_world
    = (Err (McpError InternalError "Failed to generate image: quota exceeded"), w2)
    /\ files w2 !! "/srv/storybook-images/dragon1_story.txt"
       = Some (Utf8 "Once upon a time, a dragon...").
Proof.
  intros h.
  pose (a := {| arg_prompt := Some "a dragon learns to share";
                arg_fileName := Some "dragon1"; arg_artStyle := Some "watercolor" |}).
  pose (w0 := snd (generateStory h (arg_prompt a) Examples.empty_world)).
  pose (w1 := snd (saveStoryWithProperPath (H := SimplePosix.path) h
                     "Once upon a time, a dragon..." (storyFileName "dragon1") w0)).
  destruct (image_stream_error_is_reported (H := SimplePosix.path) h a "dragon1"
              "Once upon a time, a dragon..." "/srv/storybook-images/dragon1_story.txt"
              Examples.empty_world w0 w1 [Examples.text_chunk ["one moment"]]
              (Error "quota exceeded") eq_refl eq_refl eq_refl eq_refl eq_refl eq_refl)
    as (w2 & Hh & _ & Hfile).
  exists w2. split; [exact Hh | exact Hfile].
Defined.

(** X19. Only part 0 of candidate 0 is looked at: a stream that ends
    normally, with readable chunks none of which carries inline data in
    its part 0, fails the call with "No image data received", even when a
    later part of a chunk carries an image. *)
Theorem inline_data_outside_part_0_is_ignored :
  forall `{PathModule} (h : Host) (a : Arguments) (f story storyPath : string)
         (w w0 w1 : World) (cs : list Chunk),
    arg_fileName a = Some f ->
    generateStory h (arg_prompt a) w = (Ok story, w0) ->
    saveStoryWithProperPath h story (storyFileName f) w0 = (Ok storyPath, w1) ->
    generateContentStream h imageModel (imagePrompt (style_of a) (arg_prompt a))
    = prepend cs SEnd ->
    forallb readable cs = true ->
    first_inlineData (prepend cs SEnd) = None ->
    handler h (tool_call a) w
    = (Err (McpError InternalError
              "Failed to generate image: MCP error -32603: No image data received from the API"),
       logged (OpGenerate imageModel (imagePrompt (style_of a) (arg_prompt a))) w1).
Proof.
  intros P h a f story storyPath w w0 w1 cs Hf Hstory Hsave Hstream Hread Hnone.
  rewrite (handler_cases h a w w0 story Hstory), Hf, Hsave. lazy zeta.
  rewrite Hstream, (image_loop_prepend h _ _ _ _ cs _ _ Hread Hnone). reflexivity.
Qed.

Lemma inline_data_outside_part_0_is_ignored_witness :
  let text_then_image :=
    {| candidates := Some [ {| content := Some {| parts := Some
         [ {| text := Some "here is your picture"; inlineData := None |};
           {| text := None;
              inlineData := Some {| data := Some "aGk="; mimeType := Some "image/png" |} |} ]
       |} |} ] |} in
  let h := Examples.linux_host
             (SChunk (Examples.text_chunk ["Once upon a time, a dragon..."]) SEnd)
             (SChunk text_then_image SEnd)
             "2026-11-02T10:20:30.123Z" Examples.never_throws in
  contains_inlineData text_then_image = true
  /\ fst (handler (H := SimplePosix.path) h Examples.dragon Examples.empty_world)
     = Err (McpError InternalError
              "Failed to generate image: MCP error -32603: No image data received from the API").
Proof.
  intros text_then_image h. split; [reflexivity|].
  pose (a := {| arg_prompt := Some "a dragon learns to share";
                arg_fileName := Some "dragon1"; arg_artStyle := Some "watercolor" |}).
  pose (w0 := snd (generateStory h (arg_prompt a) Examples.empty_world)).
  pose (w1 := snd (saveStoryWithProperPath (H := SimplePosix.path) h
                     "Once upon a time, a dragon..." (storyFileName "dragon1") w0)).
  exact (f_equal fst
           (inline_data_outside_part_0_is_ignored (H := SimplePosix.path) h a "dragon1"
              "Once upon a time, a dragon..." "/srv/storybook-images/dragon1_story.txt"
              Examples.empty_world w0 w1 [text_then_image]
              eq_refl eq_refl eq_refl eq_refl eq_refl eq_refl)).
Defined.

(* ===================================================================== *)
(** * Further properties: the story inside a call *)
(* ===================================================================== *)

(** X20. A failed story does not block the image: when the story stream
    or its reading throws, and the image stream reaches inline data on a
    host whose calls do not throw, the call succeeds and the story file
    is written with the fallback that embeds the error message. *)
Theorem story_failure_does_not_block_the_image :
  forall `{PathModule} (h : Host) (a : Arguments) (f : string) (found : InlineData)
         (e : exn) (w : World),
    arg_fileName a = Some f ->
    (forall l op, throws h l op = None) ->
    collect_story_text (generateContentStream h storyModel (storyPrompt (arg_prompt a))) ""
    = Err e ->
    first_inlineData
      (generateContentStream h imageModel (imagePrompt (style_of a) (arg_prompt a)))
    = Some found ->
    exists res w',
      handler h (tool_call a) w = (Ok res, w')
      /\ success res = true
      /\ In (OpWrite (storyPath res)
               (Utf8 ("Once upon a time... (Story generation failed: "
                      +:+ message_or_String e +:+ ")")))
            (log w').
Proof.
  intros P h a f found e w Hf Hno Hstory Hfirst.
  destruct (handler_success h Hno a f found w Hf Hfirst)
    as (res & w' & ops & Hh & Hsuccess & _).
  destruct (handler_returns_inv h _ w w' res Hh)
    as (a' & f' & story & w0 & Ha & _ & Hgen & _ & Hin & _).
  assert (a' = a) as -> by (injection Ha; congruence).
  exists res, w'. split; [exact Hh|]. split; [exact Hsuccess|].
  revert Hgen.
  unfold generateStory, try_catch, bind, models_generateContentStream, lift, ret, throw.
  rewrite Hstory. intros [= <- _]. exact Hin.
Qed.

Lemma story_failure_does_not_block_the_image_witness :
  let h := Examples.linux_host (SThrow (NonError "503"))
             (SChunk (Examples.image_chunk (Some "aGk=")) SEnd)
             "2026-11-02T10:20:30.123Z" Examples.never_throws in
  exists res w',
    handler (H := SimplePosix.path) h Examples.dragon Examples.empty_world = (Ok res, w')
    /\ success res = true
    /\ In (OpWrite (storyPath res)
             (Utf8 "Once upon a time... (Story generation failed: 503)"))
          (log w').
Proof.
  intros h.
  exact (story_failure_does_not_block_the_image (H := SimplePosix.path) h
           {| arg_prompt := Some "a dragon learns to share";
              arg_fileName := Some "dragon1"; arg_artStyle := Some "watercolor" |}
           "dragon1" {| data := Some "aGk="; mimeType := Some "image/png" |}
           (NonError "503") Examples.empty_world eq_refl (fun _ _ => eq_refl)
           eq_refl eq_refl).
Defined.

(** X21. A story that cannot be saved stops the call before the image
    model is asked: the error of the retry leaves through the outer
    boundary (wrapped as "Error processing request" unless it is an
    [McpError]) and no image prompt is sent. *)
Theorem unsaved_story_stops_the_call :
  forall `{PathModule} (h : Host) (a : Arguments) (f story : string)
         (w w0 w1 : World) (e : exn),
    arg_fileName a = Some f ->
    generateStory h (arg_prompt a) w = (Ok story, w0) ->
    saveStoryWithProperPath h story (storyFileName f) w0 = (Err e, w1) ->
    handler h (tool_call a) w
    = (Err (if instanceof_McpError e then e
            else McpError InternalError
                   ("Error processing request: " +:+ message_or_String e)), w1)
    /\ image_prompts (log w1) = image_prompts (log w).
Proof.
  intros P h a f story w w0 w1 e Hf Hstory Hsave.
  split; [exact (handler_fails_when_story_is_not_saved h a f story w w0 w1 e Hf Hstory Hsave)|].
  destruct (generateStory_returns h (arg_prompt a) w) as [story' Hs'].
  rewrite Hs' in Hstory. injection Hstory as -> <-.
  destruct (local_saveStoryWithProperPath h _ _ _ _ _ Hsave) as (ops & Hl & Hq).
  rewrite Hl, image_prompts_app, (image_prompts_local ops Hq), app_nil_r.
  simpl. rewrite image_prompts_app, app_nil_r. reflexivity.
Qed.

Lemma unsaved_story_stops_the_call_witness :
  let always := fun (_ : list Op) (op : Op) =>
                  match op with
                  | OpWrite _ _ => Some (Error "ENOSPC: no space left on device")
                  | _ => None
                  end in
  let h := Examples.linux_host SEnd (SChunk (Examples.image_chunk (Some "aGk=")) SEnd)
             "2026-11-02T10:20:30.123Z" always in
  let out := handler (H := SimplePosix.path) h Examples.dragon Examples.empty_world in
  out = (Err (McpError InternalError
                "Error processing request: ENOSPC: no space left on device"), snd out)
  /\ image_prompts (log (snd out)) = [].
Proof.
  intros always h out.
  pose (a := {| arg_prompt := Some "a dragon learns to share";
                arg_fileName := Some "dragon1"; arg_artStyle := Some "watercolor" |}).
  pose (w0 := snd (generateStory h (arg_prompt a) Examples.empty_world)).
  exact (unsaved_story_stops_the_call (H := SimplePosix.path) h a "dragon1"
           story_fallback Examples.empty_world w0 (snd out)
           (Error "ENOSPC: no space left on device") eq_refl eq_refl eq_refl).
Defined.

(* ===================================================================== *)
(** * Further properties: where files go *)
(* ===================================================================== *)



(** X23. When no call throws, a writer saves in the directory of the
    save mode: below the working directory in [storybook-images], or, in
    desktop mode, in [storybook-images] below the path [getDesktopPath]
    answers; the payload is at the returned path. *)
Theorem save_directory_follows_mode :
  forall `{PathModule} (h : Host) (payload : Payload) (fileName : string) (w : World),
    (forall l op, throws h l op = None) ->
    exists p w' base,
      save h payload fileName w = (Ok p, w')
      /\ files w' !! p = Some payload
      /\ p = path_normalize (path_join [path_join [base; "storybook-images"]; fileName])
      /\ (if save_to_desktop h then getDesktopPath h w = (Ok base, w)
          else base = process_cwd h).
Proof.
  intros P h payload fileName w Hno.
  destruct (save_ok h payload fileName w Hno) as (p & w' & pre & Hsave & _ & _ & Hlocal).
  exists p, w'.
  pose proof (proj1 (save_returns h payload fileName w w' p Hsave)) as Hfile.
  destruct (save_to_desktop h) eqn:Hmode.
  - destruct (getDesktopPath_pure h w) as [desktop Hd]. exists desktop.
    split; [exact Hsave|]. split; [exact Hfile|]. split; [|exact Hd].
    rewrite save_is_try_catch in Hsave. unfold try_catch in Hsave.
    destruct (first_attempt_ok h payload fileName w Hno) as (q & w1 & H1 & _).
    rewrite H1 in Hsave. injection Hsave as -> ->.
    unfold first_attempt in H1. rewrite Hmode in H1. unfold bind at 1 in H1.
    rewrite Hd in H1. lazy zeta in H1.
    destruct (dir_then_write h _ _ _ _ _ _ H1) as (pre' & _ & Hc).
    destruct Hc as [(e & He & _)|[(e & He & _)|(Hq & _)]]; try discriminate.
    injection Hq as ->. reflexivity.
  - exists (process_cwd h).
    split; [exact Hsave|]. split; [exact Hfile|]. split; [|reflexivity].
    exact (Hlocal eq_refl).
Qed.

Lemma save_directory_follows_mode_witness :
  let h := Examples.desktop_host "darwin" {[ "SAVE_TO_DESKTOP" := "true" ]} in
  exists p w',
    save (H := SimplePosix.path) h (Utf8 "Once upon a time") "dragon1_story.txt"
      Examples.empty_world = (Ok p, w')
    /\ files w' !! p = Some (Utf8 "Once upon a time")
    /\ p = "/home/ann/Desktop/storybook-images/dragon1_story.txt".
Proof.
  intros h.
  destruct (save_directory_follows_mode (H := SimplePosix.path) h (Utf8 "Once upon a time")
              "dragon1_story.txt" Examples.empty_world (fun _ _ => eq_refl))
    as (p & w' & base & Hsave & Hfile & Hp & Hbase).
  exists p, w'. split; [exact Hsave|]. split; [exact Hfile|].
  change (save_to_desktop h) with true in Hbase. lazy iota in Hbase.
  assert (Hd : getDesktopPath (H := SimplePosix.path) h Examples.empty_world
               = (Ok "/home/ann/Desktop", Examples.empty_world)) by reflexivity.
  rewrite Hd in Hbase. injection Hbase as <-. exact Hp.
Defined.
